(** * ngcc: the ESM5 reflection host and the ESM2015 package parser

    A shallow embedding of

    - [packages/compiler-cli/src/ngcc/src/host/esm5_host.ts]
      ([Esm5ReflectionHost] and its helpers [getIifeBody],
      [getReturnIdentifier], [getReturnStatement]);
    - [packages/compiler-cli/src/ngcc/src/parser/esm2015_parser.ts]
      ([Esm2015PackageParser.parseFile]);

    followed by the properties of the specification, each stated over these
    definitions. *)

From Stdlib Require Import List ZArith String Bool Lia Permutation.
Import ListNotations.

Set Implicit Arguments.
Set Warnings "-register-all".
Local Open Scope string_scope.
Local Open Scope Z_scope.
Local Open Scope list_scope.

(** ** The part of the TypeScript syntax tree the two files look at *)

Module ts.

(** A source file is the root of a tree.  The parser keys a JavaScript [Map]
    by source-file objects, that is by object identity; a program holds one
    object per file, so the handle is the file name. *)
Record SourceFile : Type := mkSourceFile { fileName : string }.

Definition SourceFile_eqb (a b : SourceFile) : bool :=
  String.eqb (fileName a) (fileName b).

Record Identifier : Type := mkIdentifier { pos : Z; text : string }.

Record ParameterDeclaration : Type := mkParameter { parameterName : string }.

(** Expressions and statements.  [FunctionExpression] always has a [Block]
    body (its [statements]); an [ArrowFunction] has a concise body or a
    block.  [OtherExpression] and [OtherStatement] stand for the node kinds
    that none of the type guards used in the two files accept. *)
Inductive Expression : Type :=
| IdentifierExpression (name : Identifier)
| ParenthesizedExpression (expression : Expression)
| CallExpression (expression : Expression) (arguments : list Expression)
| FunctionExpression (parameters : list ParameterDeclaration)
                     (body : list Statement)
| ArrowFunction (parameters : list ParameterDeclaration)
                (body : ConciseBody)
| ArrayLiteralExpression (elements : list Expression)
| ObjectLiteralExpression (properties : list (string * Expression))
| PropertyAccessExpression (expression : Expression) (name : Identifier)
| BinaryExpression (left : Expression) (operatorToken : string)
                   (right : Expression)
| OtherExpression (kind : Z)
with Statement : Type :=
| ReturnStatement (expression : option Expression)
| ExpressionStatement (expression : Expression)
| IfStatement (expression : Expression) (thenStatement : Statement)
              (elseStatement : option Statement)
| Block (statements : list Statement)
| FunctionDeclarationStatement (name : option Identifier)
                               (parameters : list ParameterDeclaration)
                               (body : list Statement)
| OtherStatement (kind : Z)
with ConciseBody : Type :=
| ConciseExpression (expression : Expression)
| ConciseBlock (statements : list Statement).

(** [ts.Declaration], as far as the two files distinguish its kinds:
    [SignatureDeclaration] stands for the kinds other than a function
    declaration that have a [parameters] list (methods, constructors,
    accessors, function expressions, arrow functions), [OtherDeclaration]
    for the kinds without one.  Every
    declaration knows its name node (absent for an anonymous class or
    function, e.g. [export default class {}]) and the source file that
    [getSourceFile()] reaches by walking up the parents. *)
Inductive DeclarationKind : Type :=
| VariableDeclaration (initializer : option Expression)
| ClassDeclaration
| FunctionDeclaration (parameters : list ParameterDeclaration)
| SignatureDeclaration (kind : Z) (parameters : list ParameterDeclaration)
| OtherDeclaration (kind : Z).

Record Declaration : Type := mkDeclaration {
  declarationPos : Z;
  sourceFile : SourceFile;
  name : option Identifier;
  declarationKind : DeclarationKind
}.

Definition getSourceFile (d : Declaration) : SourceFile := sourceFile d.

(** The [parameters] property of a declaration, [undefined] for the kinds
    that have none. *)
Definition declarationParameters (d : Declaration)
  : option (list ParameterDeclaration) :=
  match declarationKind d with
  | FunctionDeclaration parameters => Some parameters
  | SignatureDeclaration _ parameters => Some parameters
  | VariableDeclaration _ => None
  | ClassDeclaration => None
  | OtherDeclaration _ => None
  end.

(** [ts.Symbol]: its flags, its value declaration and its table of exports
    (for a class or a function standing for one, the static members).
    [ts.SymbolTable] is a [Map] from names to symbols. *)
Inductive Symbol : Type := mkSymbol {
  flags : Z;
  escapedName : string;
  valueDeclaration : option Declaration;
  exports : option (list (string * Symbol))
}.

Definition SymbolTable : Type := list (string * Symbol).

Fixpoint SymbolTable_get (table : SymbolTable) (key : string) : option Symbol :=
  match table with
  | [] => None
  | (k, s) :: rest => if String.eqb k key then Some s else SymbolTable_get rest key
  end.

Definition SymbolTable_has (table : SymbolTable) (key : string) : bool :=
  match SymbolTable_get table key with Some _ => true | None => false end.

(** What [getSymbolAtLocation] is asked about in the two files. *)
Inductive Node : Type :=
| SourceFileNode (file : SourceFile)
| IdentifierNode (identifier : Identifier).

(** The symbol-resolution snapshot behind [ts.TypeChecker]: the three
    queries the two files make. *)
Record TypeChecker : Type := mkTypeChecker {
  getSymbolAtLocation : Node -> option Symbol;
  getExportsOfModule : Symbol -> list Symbol;
  getAliasedSymbol : Symbol -> Symbol
}.

(** The type guards used as predicates below. *)
Definition isFunctionExpression (e : Expression) : bool :=
  match e with FunctionExpression _ _ => true | _ => false end.
Definition isArrayLiteralExpression (e : Expression) : bool :=
  match e with ArrayLiteralExpression _ => true | _ => false end.
Definition isReturnStatement (s : Statement) : bool :=
  match s with ReturnStatement _ => true | _ => false end.

(** [ts.SymbolFlags], the two members the parser tests. *)
Module SymbolFlags.
Definition Class : Z := Z.shiftl 1 5.
Definition Alias : Z := Z.shiftl 1 21.
End SymbolFlags.

End ts.

(** ** JavaScript's [&] and truthiness of a number *)

(** [ToInt32]: the operands of [&] are taken modulo 2^32 into the signed
    32-bit range. *)
Definition toInt32 (n : Z) : Z :=
  let m := n mod 2 ^ 32 in
  if m <? 2 ^ 31 then m else m - 2 ^ 32.

Definition bitand (a b : Z) : Z := Z.land (toInt32 a) (toInt32 b).

Definition truthy (n : Z) : bool := negb (n =? 0).

(** [Array.prototype.find]. *)
Fixpoint find_first {A : Type} (p : A -> bool) (l : list A) : option A :=
  match l with
  | [] => None
  | x :: rest => if p x then Some x else find_first p rest
  end.

(** ** esm5_host.ts *)

Module Esm5ReflectionHost.
Import ts.

(** [function getReturnStatement(body: ts.Block)] *)
Definition getReturnStatement (body : list Statement) : option Statement :=
  find_first isReturnStatement body.

(** [function getReturnIdentifier(body: ts.Block)] *)
Definition getReturnIdentifier (body : list Statement) : option Identifier :=
  match getReturnStatement body with
  | Some (ReturnStatement (Some (IdentifierExpression id))) => Some id
  | _ => None
  end.

(** [function getIifeBody(declaration: ts.VariableDeclaration)]; the caller
    has checked [ts.isVariableDeclaration], so the argument is the
    declaration's initializer. *)
Definition getIifeBody (initializer : option Expression) : option (list Statement) :=
  match initializer with
  | Some (ParenthesizedExpression call) =>
      match call with
      | CallExpression (FunctionExpression _ body) _ => Some body
      | _ => None
      end
  | _ => None
  end.

Section Host.

Variable checker : TypeChecker.

(** Modelled from the spec: [esm2015_host.ts] is not part of the sources at
    hand; the name of the static property holding the constructor
    parameters (its constant [CONSTRUCTOR_PARAMS]) is the spec's
    [ctorParameters]. *)
Definition CONSTRUCTOR_PARAMS : string := "ctorParameters".

(** [getPropertyValueFromSymbol] of [esm2015_host.ts] and
    [reflectObjectLiteral] of the ngtsc reflector are imported by the file
    and are taken as given. *)
Variable ReflectedObject : Type.
Variable getPropertyValueFromSymbol : Symbol -> option Expression.
Variable reflectObjectLiteral : list (string * Expression) -> ReflectedObject.

(** [getClassSymbol(declaration: ts.Declaration)] *)
Definition getClassSymbol (declaration : Declaration) : option Symbol :=
  match declarationKind declaration with
  | VariableDeclaration initializer =>
      match getIifeBody initializer with
      | Some iifeBody =>
          match getReturnIdentifier iifeBody with
          | Some innerClassIdentifier =>
              getSymbolAtLocation checker (IdentifierNode innerClassIdentifier)
          | None => None
          end
      | None => None
      end
  | _ => None
  end.

(** [getConstructorParameterDeclarations(classSymbol: ts.Symbol)]: the value
    declaration is taken for a function declaration by a cast, so the
    parameters of whatever declaration it is are returned. *)
Definition getConstructorParameterDeclarations (classSymbol : Symbol)
  : list ParameterDeclaration :=
  match valueDeclaration classSymbol with
  | Some constructor =>
      match declarationParameters constructor with
      | Some parameters => parameters
      | None => []
      end
  | None => []
  end.

(** The callback of [elements.map] in [getConstructorDecorators]. *)
Definition reflectElement (element : Expression) : option ReflectedObject :=
  match element with
  | ObjectLiteralExpression properties => Some (reflectObjectLiteral properties)
  | _ => None
  end.

(** [getConstructorDecorators(classSymbol: ts.Symbol)] *)
Definition getConstructorDecorators (classSymbol : Symbol)
  : list (option ReflectedObject) :=
  match exports classSymbol with
  | Some table =>
      if SymbolTable_has table CONSTRUCTOR_PARAMS then
        match SymbolTable_get table CONSTRUCTOR_PARAMS with
        | Some propSymbol =>
            match getPropertyValueFromSymbol propSymbol with
            | Some (FunctionExpression _ body) =>
                match getReturnStatement body with
                | Some (ReturnStatement (Some (ArrayLiteralExpression elements))) =>
                    List.map reflectElement elements
                | _ => []
                end
            | _ => []
            end
        | None => []
        end
      else []
  | None => []
  end.

End Host.

End Esm5ReflectionHost.

(** ** esm2015_parser.ts *)

(** *** Outcomes and the monad of a call

    A call either returns or throws; the only exception the parser can throw
    by itself is the [TypeError] of reading a property of [undefined].  A
    computation runs against the checker's snapshot and hands it back, so
    that what a call does to the snapshot can be stated. *)

Inductive Outcome (A : Type) : Type :=
| Returned (value : A)
| Thrown (error : string).
Arguments Thrown {A} error.

Definition TypeError : string := "TypeError".

Definition M (A : Type) : Type := ts.TypeChecker -> Outcome A * ts.TypeChecker.

Definition ret {A : Type} (a : A) : M A := fun s => (Returned a, s).

Definition bind {A B : Type} (m : M A) (f : A -> M B) : M B :=
  fun s => match m s with
           | (Returned a, s') => f a s'
           | (Thrown e, s') => (Thrown e, s')
           end.

Definition throw {A : Type} (e : string) : M A := fun s => (Thrown e, s).

(** A query of the snapshot. *)
Definition query {A : Type} (q : ts.TypeChecker -> A) : M A :=
  fun s => (Returned (q s), s).

Notation "x <- m ;; k" := (bind m (fun x => k))
  (at level 61, m at next level, right associativity).

(** [Array.prototype.map] with an effectful callback, left to right. *)
Fixpoint mapM {A B : Type} (f : A -> M B) (l : list A) : M (list B) :=
  match l with
  | [] => ret []
  | x :: rest => y <- f x ;; ys <- mapM f rest ;; ret (y :: ys)
  end.

(** [Array.prototype.forEach] with an effectful callback that updates [acc]. *)
Fixpoint forEachM {A S : Type} (f : S -> A -> M S) (l : list A) (acc : S) : M S :=
  match l with
  | [] => ret acc
  | x :: rest => acc' <- f acc x ;; forEachM f rest acc'
  end.

(** Reading a property of a value that may be [undefined]. *)
Definition property_of {A : Type} (o : option A) : M A :=
  match o with
  | Some a => ret a
  | None => throw TypeError
  end.

(** [.filter(x => x)] on an array of objects and [undefined]s. *)
Fixpoint filter_defined {A : Type} (l : list (option A)) : list A :=
  match l with
  | [] => []
  | Some a :: rest => a :: filter_defined rest
  | None :: rest => filter_defined rest
  end.

(** *** The result records *)

(** Modelled from the spec: the [Decorator] record of the reflection host
    interface is not part of the sources at hand; the spec's
    DecoratorMetadata has a decorator type and an argument sequence. *)
Record Decorator : Type := mkDecorator {
  decoratorType : string;
  decoratorArguments : list ts.Expression
}.

(** Modelled from the spec: [parsed_class.ts] is not part of the sources at
    hand; the constructor call [new ParsedClass(name, declaration,
    decorators)] and the spec's ParsedClass fix the three fields. *)
Record ParsedClass : Type := mkParsedClass {
  className : string;
  declaration : ts.Declaration;
  decorators : list Decorator
}.

(** Modelled from the spec: [parsed_file.ts] is not part of the sources at
    hand; [new ParsedFile(file)] starts with no decorated classes. *)
Record ParsedFile : Type := mkParsedFile {
  parsedSourceFile : ts.SourceFile;
  decoratedClasses : list ParsedClass
}.

Definition new_ParsedFile (file : ts.SourceFile) : ParsedFile :=
  mkParsedFile file [].

(** [file.decoratedClasses.push(clazz)] *)
Definition push_decoratedClass (file : ParsedFile) (clazz : ParsedClass) : ParsedFile :=
  mkParsedFile (parsedSourceFile file) (decoratedClasses file ++ [clazz]).

(** *** [Map<ts.SourceFile, ParsedFile>]

    A JavaScript [Map] iterates in insertion order and [set] on a present key
    keeps the key's place: an association list. *)
Module FileMap.

Definition t : Type := list (ts.SourceFile * ParsedFile).

Definition empty : t := [].

Fixpoint get (m : t) (file : ts.SourceFile) : option ParsedFile :=
  match m with
  | [] => None
  | (k, v) :: rest => if ts.SourceFile_eqb k file then Some v else get rest file
  end.

Definition has (m : t) (file : ts.SourceFile) : bool :=
  match get m file with Some _ => true | None => false end.

Fixpoint set (m : t) (file : ts.SourceFile) (v : ParsedFile) : t :=
  match m with
  | [] => [(file, v)]
  | (k, v') :: rest =>
      if ts.SourceFile_eqb k file then (k, v) :: rest
      else (k, v') :: set rest file v
  end.

Definition values (m : t) : list ParsedFile := List.map snd m.

End FileMap.

Module Esm2015PackageParser.
Import ts.

Section Parser.

(** [this.host.getDecoratorsOfDeclaration]: the host is handed to the
    constructor; it answers from the same snapshot.  The declaration it is
    given may be [undefined] (a symbol without value declaration), the
    answer is an array or [null]. *)
Variable host_getDecoratorsOfDeclaration :
  TypeChecker -> option Declaration -> option (list Decorator).

(** The callback of the first [.map]: an alias is replaced by the symbol it
    stands for. *)
Definition resolveExport (exportSymbol : Symbol) : M Symbol :=
  if truthy (bitand SymbolFlags.Alias (flags exportSymbol))
  then query (fun checker => getAliasedSymbol checker exportSymbol)
  else ret exportSymbol.

(** The callback of the first [.filter]. *)
Definition isExportedClass (exportSymbol : Symbol) : bool :=
  truthy (bitand (flags exportSymbol) SymbolFlags.Class).

(** The callback of the [.map] over [classDeclarations]: an array, even an
    empty one, is truthy; [declaration.name!.text] reads [name] of the
    declaration and [text] of the name. *)
Definition toParsedClass (declaration : option Declaration)
  : M (option ParsedClass) :=
  decorators <- query (fun checker =>
                  host_getDecoratorsOfDeclaration checker declaration) ;;
  match decorators with
  | Some decorators =>
      d <- property_of declaration ;;
      n <- property_of (name d) ;;
      ret (Some (mkParsedClass (text n) d decorators))
  | None => ret None
  end.

(** The callback of [decoratedClasses.forEach]; the [push] changes the
    record the map holds for [file]. *)
Definition addToFile (map : FileMap.t) (clazz : ParsedClass) : M FileMap.t :=
  let file := getSourceFile (declaration clazz) in
  let map := if negb (FileMap.has map file)
             then FileMap.set map file (new_ParsedFile file)
             else map in
  parsedFile <- property_of (FileMap.get map file) ;;
  ret (FileMap.set map file (push_decoratedClass parsedFile clazz)).

(** [parseFile(entryPoint: ts.SourceFile): ParsedFile[]] *)
Definition parseFile (entryPoint : SourceFile) : M (list ParsedFile) :=
  moduleSymbol <- query (fun checker =>
                    getSymbolAtLocation checker (SourceFileNode entryPoint)) ;;
  let map := FileMap.empty in
  match moduleSymbol with
  | Some moduleSymbol =>
      exported <- query (fun checker => getExportsOfModule checker moduleSymbol) ;;
      resolved <- mapM resolveExport exported ;;
      let exportClasses := List.filter isExportedClass resolved in
      let classDeclarations := List.map valueDeclaration exportClasses in
      mapped <- mapM toParsedClass classDeclarations ;;
      let decoratedClasses := filter_defined mapped in
      map <- forEachM addToFile decoratedClasses map ;;
      ret (FileMap.values map)
  | None => ret (FileMap.values map)
  end.

End Parser.

End Esm2015PackageParser.

(** *** The parser against services that may do anything

    [Esm2015PackageParser.parseFile] reads the checker and the host as
    queries of the snapshot.  Here the four calls that leave the file are
    arbitrary computations: each of them may hand back a changed snapshot,
    and each may throw.  The code of [parseFile] is the same. *)

Module EffectfulParser.
Import ts.

Record Services : Type := mkServices {
  checker_getSymbolAtLocation : Node -> M (option Symbol);
  checker_getExportsOfModule : Symbol -> M (list Symbol);
  checker_getAliasedSymbol : Symbol -> M Symbol;
  host_getDecoratorsOfDeclaration :
    option Declaration -> M (option (list Decorator))
}.

(** A computation hands the snapshot back as it found it, whether it
    returns or throws. *)
Definition leavesSnapshot {A : Type} (m : M A) : Prop :=
  forall snapshot, snd (m snapshot) = snapshot.

(** The snapshot is immutable under the services: none of the four calls
    changes it. *)
Definition immutableUnder (services : Services) : Prop :=
  (forall node, leavesSnapshot (checker_getSymbolAtLocation services node)) /\
  (forall moduleSymbol,
     leavesSnapshot (checker_getExportsOfModule services moduleSymbol)) /\
  (forall aliasSymbol,
     leavesSnapshot (checker_getAliasedSymbol services aliasSymbol)) /\
  (forall declaration,
     leavesSnapshot (host_getDecoratorsOfDeclaration services declaration)).

(** The services of [Esm2015PackageParser]: queries of the snapshot. *)
Definition queries
  (host : TypeChecker -> option Declaration -> option (list Decorator))
  : Services :=
  mkServices
    (fun node => query (fun checker => getSymbolAtLocation checker node))
    (fun moduleSymbol =>
       query (fun checker => getExportsOfModule checker moduleSymbol))
    (fun aliasSymbol =>
       query (fun checker => getAliasedSymbol checker aliasSymbol))
    (fun declaration => query (fun checker => host checker declaration)).

Section Parser.

Variable services : Services.

(** The callback of the first [.map]. *)
Definition resolveExport (exportSymbol : Symbol) : M Symbol :=
  if truthy (bitand SymbolFlags.Alias (flags exportSymbol))
  then checker_getAliasedSymbol services exportSymbol
  else ret exportSymbol.

(** The callback of the [.map] over [classDeclarations]. *)
Definition toParsedClass (declaration : option Declaration)
  : M (option ParsedClass) :=
  decorators <- host_getDecoratorsOfDeclaration services declaration ;;
  match decorators with
  | Some decorators =>
      d <- property_of declaration ;;
      n <- property_of (name d) ;;
      ret (Some (mkParsedClass (text n) d decorators))
  | None => ret None
  end.

(** [parseFile(entryPoint: ts.SourceFile): ParsedFile[]] *)
Definition parseFile (entryPoint : SourceFile) : M (list ParsedFile) :=
  moduleSymbol <- checker_getSymbolAtLocation services (SourceFileNode entryPoint) ;;
  let map := FileMap.empty in
  match moduleSymbol with
  | Some moduleSymbol =>
      exported <- checker_getExportsOfModule services moduleSymbol ;;
      resolved <- mapM resolveExport exported ;;
      let exportClasses :=
        List.filter Esm2015PackageParser.isExportedClass resolved in
      let classDeclarations := List.map valueDeclaration exportClasses in
      mapped <- mapM toParsedClass classDeclarations ;;
      let decoratedClasses := filter_defined mapped in
      map <- forEachM Esm2015PackageParser.addToFile decoratedClasses map ;;
      ret (FileMap.values map)
  | None => ret (FileMap.values map)
  end.

End Parser.

End EffectfulParser.

(** ** The shapes the specification speaks of *)

Module Shapes.
Import ts.

(** "The first return statement of the body returns [e]": a return
    statement among the immediate statements of the body, with no return
    statement before it. *)
Inductive FirstReturn : list Statement -> option Expression -> Prop :=
| FirstReturn_here : forall e rest,
    FirstReturn (ReturnStatement e :: rest) e
| FirstReturn_later : forall s rest e,
    isReturnStatement s = false ->
    FirstReturn rest e ->
    FirstReturn (s :: rest) e.

(** "A variable binding whose initializer is a parenthesized call to a
    function expression, the first return statement of whose body returns
    the bare identifier [id]". *)
Inductive IifeReturning : Declaration -> Identifier -> Prop :=
| IifeReturning_intro : forall p file n parameters body arguments id,
    FirstReturn body (Some (IdentifierExpression id)) ->
    IifeReturning
      (mkDeclaration p file n
         (VariableDeclaration
            (Some (ParenthesizedExpression
                     (CallExpression (FunctionExpression parameters body)
                                     arguments)))))
      id.

(** A return statement somewhere below a statement, inside its inner
    blocks and conditionals (the body of a nested function has returns of
    its own and does not count). *)
Fixpoint containsReturn (s : Statement) : bool :=
  match s with
  | ReturnStatement _ => true
  | IfStatement _ thenStatement elseStatement =>
      containsReturn thenStatement
      || match elseStatement with
         | Some e => containsReturn e
         | None => false
         end
  | Block statements => existsb containsReturn statements
  | _ => false
  end.

(** "The only return statements of the body are nested inside inner
    blocks": there is one below some statement, and no immediate statement
    is one. *)
Definition onlyNestedReturns (body : list Statement) : bool :=
  forallb (fun s => negb (isReturnStatement s)) body
  && existsb containsReturn body.

Section CtorParameters.

Variable getPropertyValueFromSymbol : Symbol -> option Expression.

(** "The [ctorParameters] static property of the class symbol holds
    [value]". *)
Definition ctorParametersValue (classSymbol : Symbol) (value : option Expression) : Prop :=
  exists table propSymbol,
    exports classSymbol = Some table /\
    SymbolTable_get table Esm5ReflectionHost.CONSTRUCTOR_PARAMS = Some propSymbol /\
    getPropertyValueFromSymbol propSymbol = value.

(** "The class symbol has no [ctorParameters] property at all". *)
Definition noCtorParameters (classSymbol : Symbol) : Prop :=
  match exports classSymbol with
  | Some table => SymbolTable_get table Esm5ReflectionHost.CONSTRUCTOR_PARAMS = None
  | None => True
  end.

(** The three malformed variants: no property, a value that is not a
    function expression, a function expression whose return statement
    does not return an array literal. *)
Inductive MalformedCtorParameters (classSymbol : Symbol) : Prop :=
| Malformed_absent :
    noCtorParameters classSymbol ->
    MalformedCtorParameters classSymbol
| Malformed_not_function : forall value,
    ctorParametersValue classSymbol value ->
    (forall e, value = Some e -> isFunctionExpression e = false) ->
    MalformedCtorParameters classSymbol
| Malformed_not_array : forall parameters body returned,
    ctorParametersValue classSymbol (Some (FunctionExpression parameters body)) ->
    FirstReturn body returned ->
    (forall e, returned = Some e -> isArrayLiteralExpression e = false) ->
    MalformedCtorParameters classSymbol.

End CtorParameters.

End Shapes.

(** ** What the parser discovers, stated without the control flow *)

Module Discovery.
Import ts.

Definition fileOf (clazz : ParsedClass) : SourceFile :=
  getSourceFile (declaration clazz).

(** The files of a sequence in first-seen order: every later occurrence of
    a file is dropped. *)
Fixpoint firstOccurrences (files : list SourceFile) : list SourceFile :=
  match files with
  | [] => []
  | f :: rest =>
      f :: List.filter (fun g => negb (SourceFile_eqb f g)) (firstOccurrences rest)
  end.

(** The classes of one file, in the order of the sequence. *)
Definition classesOf (file : SourceFile) (classes : list ParsedClass) : list ParsedClass :=
  List.filter (fun c => SourceFile_eqb (fileOf c) file) classes.

(** The discovery-ordered grouping of the specification: one [ParsedFile]
    per file in first-seen order, holding that file's classes in discovery
    order. *)
Definition inDiscoveryOrder (classes : list ParsedClass) : list ParsedFile :=
  List.map (fun file => mkParsedFile file (classesOf file classes))
           (firstOccurrences (List.map fileOf classes)).

(** The map the parser holds once the classes of a sequence have been
    added, one after the other. *)
Definition fileTable (classes : list ParsedClass) : FileMap.t :=
  List.map (fun file => (file, mkParsedFile file (classesOf file classes)))
           (firstOccurrences (List.map fileOf classes)).

Section Discovery.

Variable host_getDecoratorsOfDeclaration :
  TypeChecker -> option Declaration -> option (list Decorator).
Variable checker : TypeChecker.

Definition isAlias (s : Symbol) : bool :=
  truthy (bitand SymbolFlags.Alias (flags s)).

(** The symbol an export stands for. *)
Definition resolved (exportSymbol : Symbol) : Symbol :=
  if isAlias exportSymbol then getAliasedSymbol checker exportSymbol
  else exportSymbol.

(** The exports of the entry module as the checker enumerates them; none
    when the module has no symbol. *)
Definition exportedSymbols (entryPoint : SourceFile) : list Symbol :=
  match getSymbolAtLocation checker (SourceFileNode entryPoint) with
  | Some moduleSymbol => getExportsOfModule checker moduleSymbol
  | None => []
  end.

(** The value declarations of the exported classes, aliases resolved, in
    export order. *)
Definition classDeclarations (entryPoint : SourceFile) : list (option Declaration) :=
  List.map valueDeclaration
    (List.filter Esm2015PackageParser.isExportedClass
       (List.map resolved (exportedSymbols entryPoint))).

(** A declaration the host reports decorators for can be named: it is
    there and has a name node. *)
Definition nameable (declaration : option Declaration) : bool :=
  match host_getDecoratorsOfDeclaration checker declaration with
  | None => true
  | Some _ =>
      match declaration with
      | Some d => match name d with Some _ => true | None => false end
      | None => false
      end
  end.

(** The record made for a declaration with decorators and a name. *)
Definition parsedClassOf (declaration : option Declaration) : option ParsedClass :=
  match host_getDecoratorsOfDeclaration checker declaration, declaration with
  | Some decorators, Some d =>
      match name d with
      | Some n => Some (mkParsedClass (text n) d decorators)
      | None => None
      end
  | _, _ => None
  end.

(** The decorated classes in the order of their discovery during export
    enumeration. *)
Definition discovered (entryPoint : SourceFile) : list ParsedClass :=
  filter_defined (List.map parsedClassOf (classDeclarations entryPoint)).


End Discovery.

End Discovery.

(** ** Concrete programs *)

Module Examples.
Import ts.

Definition ident (p : Z) (t : string) : Expression :=
  IdentifierExpression (mkIdentifier p t).

Definition assign (target : string) (property : string) (value : Expression) : Statement :=
  ExpressionStatement
    (BinaryExpression
       (PropertyAccessExpression (ident 0 target) (mkIdentifier 0 property))
       "=" value).

(** *** A down-levelled class

    [var Foo = (function () { function Foo(bar, token) {}
       Foo.decorators = [];
       Foo.ctorParameters = function () { return [
         { type: Bar }, null,
         { type: undefined, decorators: [{ type: Inject, args: [TOKEN] }] } ]; };
       return Foo; }());] *)

Definition foo_js : SourceFile := mkSourceFile "foo.js".

Definition ctorParameters_elements : list Expression :=
  [ ObjectLiteralExpression [("type", ident 0 "Bar")];
    OtherExpression 95;
    ObjectLiteralExpression
      [("type", ident 0 "undefined");
       ("decorators",
        ArrayLiteralExpression
          [ObjectLiteralExpression
             [("type", ident 0 "Inject");
              ("args", ArrayLiteralExpression [ident 0 "TOKEN"])]])] ].

Definition ctorParameters_function : Expression :=
  FunctionExpression []
    [ReturnStatement (Some (ArrayLiteralExpression ctorParameters_elements))].

(** The ES2015 shape of the same property, [() => [...]]. *)
Definition ctorParameters_arrow : Expression :=
  ArrowFunction []
    (ConciseExpression (ArrayLiteralExpression ctorParameters_elements)).

(** [function () { if (ready) { return [...]; } }] *)
Definition ctorParameters_nested : Expression :=
  FunctionExpression []
    [IfStatement (ident 0 "ready")
       (Block [ReturnStatement (Some (ArrayLiteralExpression ctorParameters_elements))])
       None].

Definition inner_Foo_identifier : Identifier := mkIdentifier 70 "Foo".

Definition iife_body : list Statement :=
  [ FunctionDeclarationStatement (Some (mkIdentifier 30 "Foo"))
      [mkParameter "bar"; mkParameter "token"] [];
    assign "Foo" "decorators" (ArrayLiteralExpression []);
    assign "Foo" "ctorParameters" ctorParameters_function;
    ReturnStatement (Some (IdentifierExpression inner_Foo_identifier)) ].

Definition var_Foo (initializer : Expression) : Declaration :=
  mkDeclaration 4 foo_js (Some (mkIdentifier 4 "Foo"))
    (VariableDeclaration (Some initializer)).

(** [(function () { ... }())], what the TypeScript emitter writes. *)
Definition Foo_iife : Declaration :=
  var_Foo (ParenthesizedExpression
             (CallExpression (FunctionExpression [] iife_body) [])).

(** [(function () { ... })()], the call outside the parentheses. *)
Definition Foo_call_outside : Declaration :=
  var_Foo (CallExpression
             (ParenthesizedExpression (FunctionExpression [] iife_body)) []).

(** [(function () { function Foo() {} if (ready) { return Foo; } }())] *)
Definition nested_body : list Statement :=
  [ FunctionDeclarationStatement (Some (mkIdentifier 30 "Foo")) [] [];
    IfStatement (ident 0 "ready")
      (Block [ReturnStatement (Some (IdentifierExpression inner_Foo_identifier))])
      None ].

Definition Foo_nested_return : Declaration :=
  var_Foo (ParenthesizedExpression
             (CallExpression (FunctionExpression [] nested_body) [])).

Definition inner_Foo_declaration : Declaration :=
  mkDeclaration 30 foo_js (Some (mkIdentifier 30 "Foo"))
    (FunctionDeclaration [mkParameter "bar"; mkParameter "token"]).

Definition property_symbol (n : string) : Symbol :=
  mkSymbol 4 n None None.

(** The symbol of the inner function with the given value of its
    [ctorParameters] property; [getPropertyValueFromSymbol] below finds the
    value under the property symbol's name. *)
Definition inner_Foo (ctorParametersKey : string) : Symbol :=
  mkSymbol 16 "Foo" (Some inner_Foo_declaration)
    (Some [("decorators", property_symbol "decorators");
           ("ctorParameters", property_symbol ctorParametersKey)]).

Definition outer_Foo : Symbol :=
  mkSymbol 2 "Foo" (Some Foo_iife) None.

Definition Foo_without_ctorParameters : Symbol :=
  mkSymbol 16 "Foo" (Some inner_Foo_declaration)
    (Some [("decorators", property_symbol "decorators")]).

Definition getPropertyValueFromSymbol (propSymbol : Symbol) : option Expression :=
  if String.eqb (escapedName propSymbol) "function" then Some ctorParameters_function
  else if String.eqb (escapedName propSymbol) "arrow" then Some ctorParameters_arrow
  else if String.eqb (escapedName propSymbol) "nested" then Some ctorParameters_nested
  else None.

Definition reflectObjectLiteral (properties : list (string * Expression))
  : list (string * Expression) := properties.

Definition esm5_checker : TypeChecker :=
  mkTypeChecker
    (fun node =>
       match node with
       | IdentifierNode id =>
           if pos id =? 4 then Some outer_Foo
           else if String.eqb (text id) "Foo" then Some (inner_Foo "function")
           else None
       | SourceFileNode _ => None
       end)
    (fun _ => [])
    (fun s => s).

(** *** Entry modules for the parser *)

Definition bar_js : SourceFile := mkSourceFile "bar.js".

Definition class_declaration (p : Z) (file : SourceFile) (n : option string) : Declaration :=
  mkDeclaration p file
    (match n with Some t => Some (mkIdentifier p t) | None => None end)
    ClassDeclaration.

Definition Foo_class : Declaration := class_declaration 10 foo_js (Some "Foo").
Definition Bar_class : Declaration := class_declaration 10 bar_js (Some "Bar").
Definition Baz_class : Declaration := class_declaration 80 foo_js (Some "Baz").
Definition Plain_class : Declaration := class_declaration 120 foo_js (Some "Plain").
Definition Empty_class : Declaration := class_declaration 160 foo_js (Some "Empty").
(** [export default class { }] with decorators. *)
Definition anonymous_class : Declaration := class_declaration 10 bar_js None.

Definition class_symbol (n : string) (d : Declaration) : Symbol :=
  mkSymbol SymbolFlags.Class n (Some d) None.

Definition alias_symbol (n : string) : Symbol :=
  mkSymbol SymbolFlags.Alias n None None.

Definition variable_symbol (n : string) : Symbol :=
  mkSymbol 2 n None None.

Definition module_symbol (n : string) : Symbol :=
  mkSymbol 512 n None None.

Definition component : Decorator := mkDecorator "Component" [].
Definition injectable : Decorator := mkDecorator "Injectable" [].
Definition directive : Decorator := mkDecorator "Directive" [].

(** A host that knows the decorators of the classes above by name; it
    reports an empty array for [Empty], decorators for the anonymous class
    and [null] for everything else. *)
Definition host (checker : TypeChecker) (declaration : option Declaration)
  : option (list Decorator) :=
  match declaration with
  | Some d =>
      match name d with
      | Some n =>
          if String.eqb (text n) "Foo" then Some [component]
          else if String.eqb (text n) "Bar" then Some [injectable]
          else if String.eqb (text n) "Baz" then Some [directive; injectable]
          else if String.eqb (text n) "Empty" then Some []
          else None
      | None => Some [component]
      end
  | None => None
  end.

Definition exports_of (moduleName : string) : list Symbol :=
  if String.eqb moduleName "index.js" then
    [ class_symbol "Foo" Foo_class; class_symbol "Plain" Plain_class;
      variable_symbol "VERSION"; class_symbol "Bar" Bar_class;
      class_symbol "Baz" Baz_class ]
  else if String.eqb moduleName "reexport.js" then
    [ alias_symbol "Foo"; alias_symbol "Bar" ]
  else if String.eqb moduleName "direct.js" then
    [ class_symbol "Foo" Foo_class; class_symbol "Bar" Bar_class ]
  else if String.eqb moduleName "empty.js" then
    [ class_symbol "Empty" Empty_class ]
  else if String.eqb moduleName "anonymous.js" then
    [ class_symbol "Foo" Foo_class; class_symbol "default" anonymous_class ]
  else [].

Definition aliased (n : string) : Symbol :=
  if String.eqb n "Foo" then class_symbol "Foo" Foo_class
  else if String.eqb n "Bar" then class_symbol "Bar" Bar_class
  else mkSymbol 4 "unknown" None None.

(** Every file but [missing.js] has a module symbol. *)
Definition checker : TypeChecker :=
  mkTypeChecker
    (fun node =>
       match node with
       | SourceFileNode file =>
           if String.eqb (fileName file) "missing.js" then None
           else Some (module_symbol (fileName file))
       | IdentifierNode _ => None
       end)
    (fun moduleSymbol => exports_of (escapedName moduleSymbol))
    (fun aliasSymbol => aliased (escapedName aliasSymbol)).

Definition index_js : SourceFile := mkSourceFile "index.js".
Definition reexport_js : SourceFile := mkSourceFile "reexport.js".
Definition empty_js : SourceFile := mkSourceFile "empty.js".
Definition anonymous_js : SourceFile := mkSourceFile "anonymous.js".
Definition missing_js : SourceFile := mkSourceFile "missing.js".

End Examples.

(** *** Further entry modules: the classes of [index.js] alone, and a
    class exported twice, once directly and once through an alias *)

Module MoreExamples.
Import ts.

Definition exports_of (moduleName : string) : list Symbol :=
  if String.eqb moduleName "classes.js" then
    [ Examples.class_symbol "Foo" Examples.Foo_class;
      Examples.class_symbol "Plain" Examples.Plain_class;
      Examples.class_symbol "Bar" Examples.Bar_class;
      Examples.class_symbol "Baz" Examples.Baz_class ]
  else if String.eqb moduleName "twice.js" then
    [ Examples.class_symbol "Foo" Examples.Foo_class;
      Examples.class_symbol "Bar" Examples.Bar_class;
      Examples.alias_symbol "Foo" ]
  else Examples.exports_of moduleName.

Definition checker : TypeChecker :=
  mkTypeChecker
    (getSymbolAtLocation Examples.checker)
    (fun moduleSymbol => exports_of (escapedName moduleSymbol))
    (getAliasedSymbol Examples.checker).

(** Services whose [getExportsOfModule] answers once and then forgets
    every module's exports: its call hands back a snapshot without them. *)
Definition forgetful : EffectfulParser.Services :=
  EffectfulParser.mkServices
    (EffectfulParser.checker_getSymbolAtLocation
       (EffectfulParser.queries Examples.host))
    (fun moduleSymbol snapshot =>
       (Returned (getExportsOfModule snapshot moduleSymbol),
        mkTypeChecker (getSymbolAtLocation snapshot)
                      (fun _ => [])
                      (getAliasedSymbol snapshot)))
    (EffectfulParser.checker_getAliasedSymbol
       (EffectfulParser.queries Examples.host))
    (EffectfulParser.host_getDecoratorsOfDeclaration
       (EffectfulParser.queries Examples.host)).

Definition classes_js : SourceFile := mkSourceFile "classes.js".
Definition twice_js : SourceFile := mkSourceFile "twice.js".

End MoreExamples.

(** * Properties *)

(** ** Sanity checks of the embedding on the concrete programs *)

Example getClassSymbol_Foo_iife :
  Esm5ReflectionHost.getClassSymbol Examples.esm5_checker Examples.Foo_iife
  = Some (Examples.inner_Foo "function").
Proof. reflexivity. Qed.

(** The call outside the parentheses is not the shape [getIifeBody] accepts. *)
Example getClassSymbol_Foo_call_outside :
  Esm5ReflectionHost.getClassSymbol Examples.esm5_checker Examples.Foo_call_outside
  = None.
Proof. reflexivity. Qed.

Example getConstructorParameterDeclarations_Foo :
  Esm5ReflectionHost.getConstructorParameterDeclarations (Examples.inner_Foo "function")
  = [ts.mkParameter "bar"; ts.mkParameter "token"].
Proof. reflexivity. Qed.

(** The cast does not look at the kind of the value declaration: the
    parameters of a method or constructor declaration (kind 155 here) are
    returned as well, and a declaration without parameters gives none. *)
Example getConstructorParameterDeclarations_any_declaration :
  Esm5ReflectionHost.getConstructorParameterDeclarations
    (ts.mkSymbol 16384 "__constructor"
       (Some (ts.mkDeclaration 40 Examples.foo_js None
                (ts.SignatureDeclaration 155 [ts.mkParameter "bar"])))
       None)
  = [ts.mkParameter "bar"] /\
  Esm5ReflectionHost.getConstructorParameterDeclarations Examples.outer_Foo = [].
Proof. split; reflexivity. Qed.

Example getConstructorDecorators_Foo :
  Esm5ReflectionHost.getConstructorDecorators
    Examples.getPropertyValueFromSymbol Examples.reflectObjectLiteral
    (Examples.inner_Foo "function")
  = [ Some [("type", Examples.ident 0 "Bar")];
      None;
      Some [("type", Examples.ident 0 "undefined");
            ("decorators",
             ts.ArrayLiteralExpression
               [ts.ObjectLiteralExpression
                  [("type", Examples.ident 0 "Inject");
                   ("args", ts.ArrayLiteralExpression [Examples.ident 0 "TOKEN"])]])] ].
Proof. reflexivity. Qed.

Example parseFile_index :
  Esm2015PackageParser.parseFile Examples.host Examples.index_js Examples.checker
  = (Returned
       [ mkParsedFile Examples.foo_js
           [ mkParsedClass "Foo" Examples.Foo_class [Examples.component];
             mkParsedClass "Baz" Examples.Baz_class
               [Examples.directive; Examples.injectable] ];
         mkParsedFile Examples.bar_js
           [ mkParsedClass "Bar" Examples.Bar_class [Examples.injectable] ] ],
     Examples.checker).
Proof. reflexivity. Qed.

Example parseFile_missing :
  fst (Esm2015PackageParser.parseFile Examples.host Examples.missing_js Examples.checker)
  = Returned [].
Proof. reflexivity. Qed.

Example parseFile_anonymous :
  fst (Esm2015PackageParser.parseFile Examples.host Examples.anonymous_js Examples.checker)
  = Thrown TypeError.
Proof. reflexivity. Qed.

Example parseFile_empty :
  fst (Esm2015PackageParser.parseFile Examples.host Examples.empty_js Examples.checker)
  = Returned [mkParsedFile Examples.foo_js
                [mkParsedClass "Empty" Examples.Empty_class []]].
Proof. reflexivity. Qed.

(** ** The file map and the grouping *)

Section FileMapProperties.
Import ts Discovery.

Lemma SourceFile_eqb_eq : forall a b, SourceFile_eqb a b = true <-> a = b.
Proof.
  intros [a] [b]; unfold SourceFile_eqb; simpl.
  rewrite String.eqb_eq. split; congruence.
Qed.

Lemma SourceFile_eqb_refl : forall a, SourceFile_eqb a a = true.
Proof. intros a. now apply SourceFile_eqb_eq. Qed.

Lemma SourceFile_eqb_neq : forall a b, SourceFile_eqb a b = false <-> a <> b.
Proof.
  intros a b. rewrite <- SourceFile_eqb_eq.
  destruct (SourceFile_eqb a b); split; congruence.
Qed.

Lemma SourceFile_eq_dec : forall a b : SourceFile, {a = b} + {a <> b}.
Proof.
  intros a b. destruct (SourceFile_eqb a b) eqn:E.
  - left. now apply SourceFile_eqb_eq.
  - right. now apply SourceFile_eqb_neq.
Qed.

(** [get] after [set] of the same key. *)
Lemma FileMap_get_set : forall m file v,
  FileMap.get (FileMap.set m file v) file = Some v.
Proof.
  induction m as [| [k v'] rest IH]; simpl; intros file v.
  - now rewrite SourceFile_eqb_refl.
  - destruct (SourceFile_eqb k file) eqn:E; simpl; rewrite E; auto.
Qed.

(** The second [set] of a key overwrites the first, in place. *)
Lemma FileMap_set_set : forall m file v v',
  FileMap.set (FileMap.set m file v) file v' = FileMap.set m file v'.
Proof.
  induction m as [| [k v0] rest IH]; simpl; intros file v v'.
  - now rewrite SourceFile_eqb_refl.
  - destruct (SourceFile_eqb k file) eqn:E; simpl; rewrite E.
    + reflexivity.
    + now rewrite IH.
Qed.

Section Tabulated.

Variables F F' : SourceFile -> ParsedFile.

Lemma FileMap_get_tabulated : forall files file,
  FileMap.get (List.map (fun g => (g, F g)) files) file =
  if in_dec SourceFile_eq_dec file files then Some (F file) else None.
Proof.
  induction files as [| a rest IH]; simpl; intros file.
  - reflexivity.
  - destruct (SourceFile_eqb a file) eqn:E.
    + apply SourceFile_eqb_eq in E; subst a.
      destruct (SourceFile_eq_dec file file); [reflexivity | congruence].
    + apply SourceFile_eqb_neq in E. rewrite IH.
      destruct (SourceFile_eq_dec a file); [congruence |].
      now destruct (in_dec SourceFile_eq_dec file rest).
Qed.

Variable file : SourceFile.
Hypothesis agree_elsewhere : forall g, g <> file -> F' g = F g.

Lemma FileMap_set_present : forall files,
  NoDup files -> In file files ->
  FileMap.set (List.map (fun g => (g, F g)) files) file (F' file) =
  List.map (fun g => (g, F' g)) files.
Proof.
  induction files as [| a rest IH]; simpl; intros Hnodup Hin.
  - contradiction.
  - inversion Hnodup as [| ? ? Hfresh Hrest]; subst.
    destruct (SourceFile_eqb a file) eqn:E.
    + apply SourceFile_eqb_eq in E; subst a. f_equal.
      apply map_ext_in. intros g Hg. f_equal.
      symmetry. apply agree_elsewhere. congruence.
    + apply SourceFile_eqb_neq in E.
      destruct Hin as [-> | Hin]; [congruence |].
      rewrite (agree_elsewhere E). f_equal. now apply IH.
Qed.

Lemma FileMap_set_absent : forall files,
  ~ In file files ->
  FileMap.set (List.map (fun g => (g, F g)) files) file (F' file) =
  List.map (fun g => (g, F' g)) (files ++ [file]).
Proof.
  induction files as [| a rest IH]; simpl; intros Hfresh.
  - reflexivity.
  - destruct (SourceFile_eqb a file) eqn:E.
    + apply SourceFile_eqb_eq in E. tauto.
    + apply SourceFile_eqb_neq in E.
      rewrite (agree_elsewhere E). f_equal. apply IH. tauto.
Qed.

End Tabulated.

(** *** First occurrences *)

Lemma In_firstOccurrences : forall files file,
  In file (firstOccurrences files) <-> In file files.
Proof.
  induction files as [| a rest IH]; simpl; intros file.
  - tauto.
  - rewrite filter_In, IH, negb_true_iff, SourceFile_eqb_neq.
    destruct (SourceFile_eq_dec a file); tauto.
Qed.

Lemma NoDup_firstOccurrences : forall files, NoDup (firstOccurrences files).
Proof.
  induction files as [| a rest IH]; simpl; constructor.
  - rewrite filter_In, negb_true_iff, SourceFile_eqb_neq. tauto.
  - now apply NoDup_filter.
Qed.

Lemma firstOccurrences_snoc_fresh : forall files file,
  ~ In file files ->
  firstOccurrences (files ++ [file]) = firstOccurrences files ++ [file].
Proof.
  induction files as [| a rest IH]; simpl; intros file Hfresh.
  - reflexivity.
  - rewrite IH by tauto. rewrite filter_app; simpl.
    replace (SourceFile_eqb a file) with false
      by (symmetry; apply SourceFile_eqb_neq; tauto).
    reflexivity.
Qed.

Lemma firstOccurrences_snoc_seen : forall files file,
  In file files ->
  firstOccurrences (files ++ [file]) = firstOccurrences files.
Proof.
  induction files as [| a rest IH]; simpl; intros file Hin.
  - contradiction.
  - destruct (in_dec SourceFile_eq_dec file rest) as [Hrest | Hrest].
    + now rewrite IH.
    + destruct Hin as [-> | Hin]; [| contradiction].
      rewrite firstOccurrences_snoc_fresh by assumption.
      rewrite filter_app; simpl.
      now rewrite SourceFile_eqb_refl, app_nil_r.
Qed.

(** *** The classes of a file *)

Lemma classesOf_snoc : forall file classes clazz,
  classesOf file (classes ++ [clazz]) =
  classesOf file classes ++
  (if SourceFile_eqb (fileOf clazz) file then [clazz] else []).
Proof.
  intros. unfold classesOf. rewrite filter_app. reflexivity.
Qed.

Lemma classesOf_fresh : forall file classes,
  ~ In file (List.map fileOf classes) -> classesOf file classes = [].
Proof.
  induction classes as [| c rest IH]; simpl; intros Hfresh.
  - reflexivity.
  - replace (SourceFile_eqb (fileOf c) file) with false
      by (symmetry; apply SourceFile_eqb_neq; tauto).
    apply IH. tauto.
Qed.

Lemma classesOf_nonempty : forall file classes,
  In file (List.map fileOf classes) -> classesOf file classes <> [].
Proof.
  induction classes as [| c rest IH]; simpl; intros Hin.
  - contradiction.
  - destruct (SourceFile_eqb (fileOf c) file) eqn:E; [discriminate |].
    apply SourceFile_eqb_neq in E. apply IH. tauto.
Qed.

Lemma values_fileTable : forall classes,
  FileMap.values (fileTable classes) = inDiscoveryOrder classes.
Proof.
  intros. unfold FileMap.values, fileTable, inDiscoveryOrder.
  rewrite map_map. reflexivity.
Qed.

(** Adding one more class to the table of the classes seen so far gives
    the table of the longer sequence. *)
Lemma fileTable_snoc : forall classes clazz,
  FileMap.set (fileTable classes) (fileOf clazz)
    (push_decoratedClass
       (match FileMap.get (fileTable classes) (fileOf clazz) with
        | Some parsedFile => parsedFile
        | None => new_ParsedFile (fileOf clazz)
        end) clazz)
  = fileTable (classes ++ [clazz]).
Proof.
  intros classes clazz. unfold fileTable.
  set (file := fileOf clazz).
  set (F := fun g => mkParsedFile g (classesOf g classes)).
  set (F' := fun g => mkParsedFile g (classesOf g (classes ++ [clazz]))).
  assert (Hagree : forall g, g <> file -> F' g = F g).
  { intros g Hg. unfold F', F. rewrite classesOf_snoc. fold file.
    replace (SourceFile_eqb file g) with false
      by (symmetry; apply SourceFile_eqb_neq; congruence).
    now rewrite app_nil_r. }
  rewrite map_app. change (List.map fileOf [clazz]) with [file].
  change (FileMap.set
            (List.map (fun g => (g, F g))
               (firstOccurrences (List.map fileOf classes))) file
            (push_decoratedClass
               match FileMap.get
                       (List.map (fun g => (g, F g))
                          (firstOccurrences (List.map fileOf classes))) file
               with
               | Some parsedFile => parsedFile
               | None => new_ParsedFile file
               end clazz)
          = List.map (fun g => (g, F' g))
              (firstOccurrences (List.map fileOf classes ++ [file]))).
  rewrite FileMap_get_tabulated.
  destruct (in_dec SourceFile_eq_dec file
              (firstOccurrences (List.map fileOf classes))) as [Hseen | Hfresh].
  - pose proof (proj1 (In_firstOccurrences _ _) Hseen) as Hin.
    rewrite firstOccurrences_snoc_seen by assumption.
    replace (push_decoratedClass (F file) clazz) with (F' file).
    + apply FileMap_set_present;
        [exact Hagree | apply NoDup_firstOccurrences | exact Hseen].
    + unfold F', F, push_decoratedClass; simpl.
      rewrite classesOf_snoc. fold file.
      now rewrite SourceFile_eqb_refl.
  - rewrite In_firstOccurrences in Hfresh.
    rewrite firstOccurrences_snoc_fresh by assumption.
    replace (push_decoratedClass (new_ParsedFile file) clazz) with (F' file).
    + apply FileMap_set_absent; [exact Hagree |].
      now rewrite In_firstOccurrences.
    + unfold F', push_decoratedClass, new_ParsedFile; simpl.
      rewrite classesOf_snoc. fold file.
      rewrite SourceFile_eqb_refl.
      now rewrite classesOf_fresh by assumption.
Qed.

End FileMapProperties.

(** ** The ESM5 reflection host *)

Section Esm5HostProperties.
Import ts Shapes.

Variable checker : TypeChecker.
Variable ReflectedObject : Type.
Variable getPropertyValueFromSymbol : Symbol -> option Expression.
Variable reflectObjectLiteral : list (string * Expression) -> ReflectedObject.

Local Abbreviation getClassSymbol := (Esm5ReflectionHost.getClassSymbol checker).
Local Abbreviation getConstructorDecorators :=
  (Esm5ReflectionHost.getConstructorDecorators
     getPropertyValueFromSymbol reflectObjectLiteral).

(** [getReturnStatement] finds the first return statement. *)
Lemma getReturnStatement_first : forall body e,
  FirstReturn body e ->
  Esm5ReflectionHost.getReturnStatement body = Some (ReturnStatement e).
Proof.
  induction 1 as [e rest | s rest e Hs _ IH]; simpl.
  - reflexivity.
  - unfold Esm5ReflectionHost.getReturnStatement in *; simpl.
    rewrite Hs. exact IH.
Qed.

(** Whatever it finds is the first return statement. *)
Lemma getReturnStatement_found : forall body s,
  Esm5ReflectionHost.getReturnStatement body = Some s ->
  exists e, s = ReturnStatement e /\ FirstReturn body e.
Proof.
  unfold Esm5ReflectionHost.getReturnStatement.
  induction body as [| s0 rest IH]; simpl; intros s H.
  - discriminate.
  - destruct (isReturnStatement s0) eqn:Hs0.
    + injection H as <-. destruct s0; try discriminate.
      eexists; split; [reflexivity | constructor].
    + destruct (IH _ H) as [e [-> Hfirst]].
      exists e; split; [reflexivity | now constructor].
Qed.

(** It finds nothing when no immediate statement is a return statement. *)
Lemma getReturnStatement_none : forall body,
  forallb (fun s => negb (isReturnStatement s)) body = true ->
  Esm5ReflectionHost.getReturnStatement body = None.
Proof.
  unfold Esm5ReflectionHost.getReturnStatement.
  induction body as [| s rest IH]; simpl; intros H.
  - reflexivity.
  - apply andb_true_iff in H as [Hs Hrest].
    apply negb_true_iff in Hs. rewrite Hs. auto.
Qed.

Lemma getReturnIdentifier_found : forall body id,
  Esm5ReflectionHost.getReturnIdentifier body = Some id ->
  FirstReturn body (Some (IdentifierExpression id)).
Proof.
  unfold Esm5ReflectionHost.getReturnIdentifier. intros body id H.
  destruct (Esm5ReflectionHost.getReturnStatement body) as [s |] eqn:Hs;
    [| discriminate].
  destruct (getReturnStatement_found _ Hs) as [e [-> Hfirst]].
  destruct e as [[] |]; try discriminate.
  now injection H as <-.
Qed.

Lemma SymbolTable_has_get : forall table key,
  SymbolTable_has table key = true <->
  exists s, SymbolTable_get table key = Some s.
Proof.
  unfold SymbolTable_has. intros table key.
  destruct (SymbolTable_get table key); split; intros H;
    try discriminate; eauto.
  now destruct H.
Qed.

(** What [getConstructorDecorators] does once the property's value is
    known. *)
Lemma getConstructorDecorators_value : forall classSymbol value,
  ctorParametersValue getPropertyValueFromSymbol classSymbol value ->
  getConstructorDecorators classSymbol =
  match value with
  | Some (FunctionExpression _ body) =>
      match Esm5ReflectionHost.getReturnStatement body with
      | Some (ReturnStatement (Some (ArrayLiteralExpression elements))) =>
          List.map (Esm5ReflectionHost.reflectElement reflectObjectLiteral) elements
      | _ => []
      end
  | _ => []
  end.
Proof.
  intros classSymbol value (table & propSymbol & Hexports & Hget & Hvalue).
  unfold Esm5ReflectionHost.getConstructorDecorators.
  rewrite Hexports.
  replace (SymbolTable_has table Esm5ReflectionHost.CONSTRUCTOR_PARAMS) with true
    by (symmetry; apply SymbolTable_has_get; eauto).
  now rewrite Hget, Hvalue.
Qed.

(** C2. [getClassSymbol] of the ESM5 host: when the declaration is a
    variable binding whose initializer is a parenthesized call to a
    function expression and the first return statement of that function's
    body returns a bare identifier, the result is what the checker
    resolves that identifier to; when the declaration has this shape for
    no identifier, the result is none.  The function is total: no path of
    it throws. *)
Theorem getClassSymbol_iife : forall declaration,
  (forall id, IifeReturning declaration id ->
     getClassSymbol declaration = getSymbolAtLocation checker (IdentifierNode id))
  /\
  ((forall id, ~ IifeReturning declaration id) ->
     getClassSymbol declaration = None).
Proof.
  intros declaration; split.
  - intros id H. destruct H as [p file n parameters body arguments id Hfirst].
    unfold Esm5ReflectionHost.getClassSymbol; simpl.
    unfold Esm5ReflectionHost.getReturnIdentifier.
    now rewrite (getReturnStatement_first Hfirst).
  - intros Hshape.
    destruct declaration as [p file n kind].
    unfold Esm5ReflectionHost.getClassSymbol; simpl.
    destruct kind as [initializer | | | |]; try reflexivity.
    destruct initializer as [[ | call | | | | | | | | ] |]; try reflexivity.
    destruct call as [ | | callee arguments | | | | | | | ]; try reflexivity.
    destruct callee as [ | | | parameters body | | | | | | ]; try reflexivity.
    simpl.
    destruct (Esm5ReflectionHost.getReturnIdentifier body) as [id |] eqn:Hid;
      [| reflexivity].
    exfalso. apply (Hshape id). constructor.
    now apply getReturnIdentifier_found.
Qed.

(** C3. When the [ctorParameters] property of the class symbol holds a
    function expression whose (first) return statement returns an array
    literal, [getConstructorDecorators] has one entry per element, in
    element order: the reflected object literal at the position of an
    object literal, none at the position of anything else. *)
Theorem getConstructorDecorators_aligned :
  forall classSymbol parameters body elements,
  ctorParametersValue getPropertyValueFromSymbol classSymbol
    (Some (FunctionExpression parameters body)) ->
  FirstReturn body (Some (ArrayLiteralExpression elements)) ->
  List.length (getConstructorDecorators classSymbol) = List.length elements /\
  forall i element,
    nth_error elements i = Some element ->
    nth_error (getConstructorDecorators classSymbol) i =
    Some match element with
         | ObjectLiteralExpression properties =>
             Some (reflectObjectLiteral properties)
         | _ => None
         end.
Proof.
  intros classSymbol parameters body elements Hvalue Hfirst.
  rewrite (getConstructorDecorators_value Hvalue).
  rewrite (getReturnStatement_first Hfirst).
  split.
  - apply length_map.
  - intros i element Hi.
    rewrite nth_error_map, Hi. reflexivity.
Qed.

(** C5. A class symbol without [ctorParameters] property, or whose
    property does not hold a function expression (an arrow function, for
    one), or whose function's return statement does not return an array
    literal, has an empty sequence of constructor decorators; the function
    is total, nothing is thrown. *)
Theorem getConstructorDecorators_malformed : forall classSymbol,
  MalformedCtorParameters getPropertyValueFromSymbol classSymbol ->
  getConstructorDecorators classSymbol = [].
Proof.
  intros classSymbol [Habsent | value Hvalue Hnot | parameters body returned Hvalue Hfirst Hnot].
  - unfold noCtorParameters in Habsent.
    unfold Esm5ReflectionHost.getConstructorDecorators.
    destruct (exports classSymbol) as [table |]; [| reflexivity].
    unfold SymbolTable_has. now rewrite Habsent.
  - rewrite (getConstructorDecorators_value Hvalue).
    destruct value as [e |]; [| reflexivity].
    specialize (Hnot e eq_refl). now destruct e.
  - rewrite (getConstructorDecorators_value Hvalue).
    rewrite (getReturnStatement_first Hfirst).
    destruct returned as [e |]; [| reflexivity].
    specialize (Hnot e eq_refl). now destruct e.
Qed.

(** C10. Only the immediate statements of a body are searched for a
    return statement: for an IIFE whose return statements all sit inside
    inner blocks, [getClassSymbol] is none, and for a [ctorParameters]
    function with such a body [getConstructorDecorators] is empty. *)
Theorem nested_returns_not_found : forall body,
  onlyNestedReturns body = true ->
  Esm5ReflectionHost.getReturnStatement body = None /\
  (forall p file n parameters arguments,
     getClassSymbol
       (mkDeclaration p file n
          (VariableDeclaration
             (Some (ParenthesizedExpression
                      (CallExpression (FunctionExpression parameters body)
                                      arguments)))))
     = None) /\
  (forall classSymbol parameters,
     ctorParametersValue getPropertyValueFromSymbol classSymbol
       (Some (FunctionExpression parameters body)) ->
     getConstructorDecorators classSymbol = []).
Proof.
  intros body H. unfold onlyNestedReturns in H.
  apply andb_true_iff in H as [Himmediate _].
  pose proof (getReturnStatement_none _ Himmediate) as Hnone.
  split; [exact Hnone | split].
  - intros. unfold Esm5ReflectionHost.getClassSymbol; simpl.
    unfold Esm5ReflectionHost.getReturnIdentifier. now rewrite Hnone.
  - intros classSymbol parameters Hvalue.
    rewrite (getConstructorDecorators_value Hvalue). now rewrite Hnone.
Qed.

End Esm5HostProperties.

(** The down-levelled class of the examples has the shape, the variant with
    the call outside the parentheses has it for no identifier. *)
Lemma getClassSymbol_iife_witness :
  Esm5ReflectionHost.getClassSymbol Examples.esm5_checker Examples.Foo_iife
  = Some (Examples.inner_Foo "function") /\
  Esm5ReflectionHost.getClassSymbol Examples.esm5_checker Examples.Foo_call_outside
  = None.
Proof.
  split.
  - apply (proj1 (getClassSymbol_iife Examples.esm5_checker Examples.Foo_iife)
             Examples.inner_Foo_identifier).
    constructor. repeat constructor.
  - apply (proj2 (getClassSymbol_iife Examples.esm5_checker Examples.Foo_call_outside)).
    intros id H. inversion H.
Defined.

Lemma getConstructorDecorators_aligned_witness :
  let result :=
    Esm5ReflectionHost.getConstructorDecorators
      Examples.getPropertyValueFromSymbol Examples.reflectObjectLiteral
      (Examples.inner_Foo "function") in
  List.length result = 3%nat /\
  nth_error result 1 = Some None /\
  nth_error result 0 = Some (Some [("type", Examples.ident 0 "Bar")]).
Proof.
  assert (Hvalue : Shapes.ctorParametersValue Examples.getPropertyValueFromSymbol
                     (Examples.inner_Foo "function")
                     (Some Examples.ctorParameters_function)).
  { exists [("decorators", Examples.property_symbol "decorators");
            ("ctorParameters", Examples.property_symbol "function")],
           (Examples.property_symbol "function").
    repeat split. }
  destruct (@getConstructorDecorators_aligned _
              Examples.getPropertyValueFromSymbol Examples.reflectObjectLiteral
              (Examples.inner_Foo "function") []
              _ Examples.ctorParameters_elements Hvalue
              (Shapes.FirstReturn_here _ _)) as [Hlength Hnth].
  simpl; split; [exact Hlength | split].
  - exact (Hnth 1%nat _ eq_refl).
  - exact (Hnth 0%nat _ eq_refl).
Defined.

(** The arrow-function variant of [ctorParameters]. *)
Lemma getConstructorDecorators_malformed_witness :
  Esm5ReflectionHost.getConstructorDecorators
    Examples.getPropertyValueFromSymbol Examples.reflectObjectLiteral
    (Examples.inner_Foo "arrow") = [].
Proof.
  apply getConstructorDecorators_malformed.
  apply Shapes.Malformed_not_function with (value := Some Examples.ctorParameters_arrow).
  - exists [("decorators", Examples.property_symbol "decorators");
            ("ctorParameters", Examples.property_symbol "arrow")],
           (Examples.property_symbol "arrow").
    repeat split.
  - intros e H. injection H as <-. reflexivity.
Defined.

(** The bodies of the examples whose only return statement sits inside an
    [if] block. *)
Lemma nested_returns_not_found_witness :
  Shapes.onlyNestedReturns Examples.nested_body = true /\
  Esm5ReflectionHost.getClassSymbol Examples.esm5_checker Examples.Foo_nested_return
  = None /\
  Esm5ReflectionHost.getConstructorDecorators
    Examples.getPropertyValueFromSymbol Examples.reflectObjectLiteral
    (Examples.inner_Foo "nested") = [].
Proof.
  split; [reflexivity | split].
  - apply (proj1 (proj2 (@nested_returns_not_found Examples.esm5_checker _
                           Examples.getPropertyValueFromSymbol
                           Examples.reflectObjectLiteral
                           Examples.nested_body eq_refl))).
  - apply (proj2 (proj2 (@nested_returns_not_found Examples.esm5_checker _
                           Examples.getPropertyValueFromSymbol
                           Examples.reflectObjectLiteral
                           [ts.IfStatement (Examples.ident 0 "ready")
                              (ts.Block
                                 [ts.ReturnStatement
                                    (Some (ts.ArrayLiteralExpression
                                             Examples.ctorParameters_elements))])
                              None]
                           eq_refl))) with (parameters := []).
    exists [("decorators", Examples.property_symbol "decorators");
            ("ctorParameters", Examples.property_symbol "nested")],
           (Examples.property_symbol "nested").
    repeat split.
Defined.

(** ** The package parser *)

Section ParserProperties.
Import ts Discovery.

Variable host : TypeChecker -> option Declaration -> option (list Decorator).

Local Abbreviation parseFile := (Esm2015PackageParser.parseFile host).

(** *** Running the callbacks *)

Lemma resolveExport_run : forall exportSymbol checker,
  Esm2015PackageParser.resolveExport exportSymbol checker
  = (Returned (resolved checker exportSymbol), checker).
Proof.
  intros. unfold Esm2015PackageParser.resolveExport, resolved, isAlias.
  now destruct (truthy _).
Qed.

Lemma mapM_resolveExport_run : forall exported checker,
  mapM Esm2015PackageParser.resolveExport exported checker
  = (Returned (List.map (resolved checker) exported), checker).
Proof.
  induction exported as [| s rest IH]; intros checker; simpl.
  - reflexivity.
  - unfold bind. now rewrite resolveExport_run, IH.
Qed.

Lemma toParsedClass_run : forall declaration checker,
  Esm2015PackageParser.toParsedClass host declaration checker
  = (if nameable host checker declaration
     then Returned (parsedClassOf host checker declaration)
     else Thrown TypeError,
     checker).
Proof.
  intros declaration checker.
  unfold Esm2015PackageParser.toParsedClass, nameable, parsedClassOf,
    bind, query, property_of.
  destruct (host checker declaration) as [decorators |]; [| reflexivity].
  destruct declaration as [d |]; [| reflexivity]; simpl.
  now destruct (name d).
Qed.

Lemma mapM_toParsedClass_run : forall declarations checker,
  mapM (Esm2015PackageParser.toParsedClass host) declarations checker
  = (if forallb (nameable host checker) declarations
     then Returned (List.map (parsedClassOf host checker) declarations)
     else Thrown TypeError,
     checker).
Proof.
  induction declarations as [| d rest IH]; intros checker; simpl.
  - reflexivity.
  - unfold bind. rewrite toParsedClass_run.
    destruct (nameable host checker d); simpl; [| reflexivity].
    rewrite IH. now destruct (forallb _ rest).
Qed.

(** The [forEach] callback never throws: the record it reads has just
    been put into the map if it was not there. *)
Lemma addToFile_run : forall map clazz checker,
  Esm2015PackageParser.addToFile map clazz checker
  = (Returned
       (FileMap.set map (fileOf clazz)
          (push_decoratedClass
             (match FileMap.get map (fileOf clazz) with
              | Some parsedFile => parsedFile
              | None => new_ParsedFile (fileOf clazz)
              end) clazz)),
     checker).
Proof.
  intros map clazz checker.
  unfold Esm2015PackageParser.addToFile, FileMap.has, bind, fileOf.
  set (file := getSourceFile (declaration clazz)).
  destruct (FileMap.get map file) as [parsedFile |] eqn:Hget; simpl.
  - now rewrite Hget.
  - rewrite FileMap_get_set. simpl. unfold ret.
    now rewrite FileMap_set_set.
Qed.

Lemma forEachM_addToFile_run : forall classes seen checker,
  forEachM Esm2015PackageParser.addToFile classes (fileTable seen) checker
  = (Returned (fileTable (seen ++ classes)), checker).
Proof.
  induction classes as [| c rest IH]; intros seen checker; simpl.
  - now rewrite app_nil_r.
  - unfold bind. rewrite addToFile_run, fileTable_snoc, IH.
    now rewrite <- app_assoc.
Qed.

(** *** What a call of [parseFile] comes to

    The call throws exactly when the host reports decorators for an
    exported class that has no declaration or no name; otherwise it
    returns the discovered classes grouped in discovery order.  Either
    way the snapshot is handed back as it was. *)
Lemma parseFile_run : forall entryPoint checker,
  parseFile entryPoint checker
  = (if forallb (nameable host checker) (classDeclarations checker entryPoint)
     then Returned (inDiscoveryOrder (discovered host checker entryPoint))
     else Thrown TypeError,
     checker).
Proof.
  intros entryPoint checker.
  unfold Esm2015PackageParser.parseFile, discovered, classDeclarations,
    exportedSymbols.
  unfold bind at 1. unfold query at 1.
  destruct (getSymbolAtLocation checker (SourceFileNode entryPoint))
    as [moduleSymbol |]; [| reflexivity].
  unfold bind at 1. unfold query at 1.
  unfold bind at 1. rewrite mapM_resolveExport_run.
  unfold bind at 1. rewrite mapM_toParsedClass_run.
  destruct (forallb _ _); [| reflexivity].
  unfold bind.
  change FileMap.empty with (fileTable []).
  rewrite forEachM_addToFile_run. simpl.
  unfold ret. now rewrite values_fileTable.
Qed.

(** Every discovered class was made from an exported class declaration
    for which the host reported its decorators. *)
Lemma discovered_decorated : forall checker entryPoint clazz,
  In clazz (discovered host checker entryPoint) ->
  In (Some (declaration clazz)) (classDeclarations checker entryPoint) /\
  host checker (Some (declaration clazz)) = Some (decorators clazz).
Proof.
  intros checker entryPoint clazz. unfold discovered.
  induction (classDeclarations checker entryPoint) as [| d rest IH]; simpl.
  - contradiction.
  - intros Hin.
    destruct (parsedClassOf host checker d) as [c |] eqn:Hc.
    + destruct Hin as [<- | Hin]; [| tauto].
      unfold parsedClassOf in Hc.
      destruct (host checker d) as [ds |] eqn:Hhost; [| discriminate].
      destruct d as [d |]; [| discriminate].
      destruct (name d); [| discriminate].
      injection Hc as <-. simpl. tauto.
    + tauto.
Qed.

(** The classes of a returned file are discovered classes. *)
Lemma inDiscoveryOrder_classes : forall classes parsedFile clazz,
  In parsedFile (inDiscoveryOrder classes) ->
  In clazz (decoratedClasses parsedFile) ->
  In clazz classes.
Proof.
  intros classes parsedFile clazz Hfile Hclass.
  unfold inDiscoveryOrder in Hfile. apply in_map_iff in Hfile as [file [<- _]].
  simpl in Hclass. unfold classesOf in Hclass.
  now apply filter_In in Hclass.
Qed.

Lemma parseFile_returned : forall entryPoint checker parsedFiles checker',
  parseFile entryPoint checker = (Returned parsedFiles, checker') ->
  parsedFiles = inDiscoveryOrder (discovered host checker entryPoint).
Proof.
  intros entryPoint checker parsedFiles checker' H.
  rewrite parseFile_run in H.
  destruct (forallb _ _); congruence.
Qed.

(** *** The claims about [parseFile] *)

(** C1 (amended). An exported class for whose declaration the host
    reports no decorators at all ([null]) is discarded: no [ParsedClass]
    of any returned [ParsedFile] is made from that declaration. *)
Theorem parseFile_discards_absent :
  forall entryPoint checker parsedFiles checker' d,
  host checker (Some d) = None ->
  parseFile entryPoint checker = (Returned parsedFiles, checker') ->
  forall parsedFile clazz,
    In parsedFile parsedFiles ->
    In clazz (decoratedClasses parsedFile) ->
    declaration clazz <> d.
Proof.
  intros entryPoint checker parsedFiles checker' d Habsent Hrun
    parsedFile clazz Hfile Hclass Heq.
  apply parseFile_returned in Hrun. subst parsedFiles.
  pose proof (inDiscoveryOrder_classes _ _ _ Hfile Hclass) as Hdiscovered.
  apply discovered_decorated in Hdiscovered as [_ Hhost].
  congruence.
Qed.

(** C4 (amended). [parseFile] completes and returns a sequence for every
    entry module in which each exported class the host reports decorators
    for has a value declaration with a name; this covers a module whose
    symbol cannot be resolved, a module without exported classes, and
    class symbols without value declaration or name for which the host
    reports nothing. *)
Theorem parseFile_returns : forall entryPoint checker,
  forallb (nameable host checker) (classDeclarations checker entryPoint) = true ->
  exists parsedFiles,
    parseFile entryPoint checker = (Returned parsedFiles, checker).
Proof.
  intros entryPoint checker Hnameable.
  rewrite parseFile_run, Hnameable. eauto.
Qed.


(** C7. Every [ParsedFile] that [parseFile] returns holds at least one
    [ParsedClass]. *)
Theorem parsedFile_nonempty :
  forall entryPoint checker parsedFiles checker',
  parseFile entryPoint checker = (Returned parsedFiles, checker') ->
  forall parsedFile,
    In parsedFile parsedFiles -> decoratedClasses parsedFile <> [].
Proof.
  intros entryPoint checker parsedFiles checker' Hrun parsedFile Hfile.
  apply parseFile_returned in Hrun. subst parsedFiles.
  unfold inDiscoveryOrder in Hfile.
  apply in_map_iff in Hfile as [file [<- Hseen]]. simpl.
  apply classesOf_nonempty. now apply In_firstOccurrences.
Qed.

(** C8. The result is ordered by discovery: the files of the returned
    sequence are the files of the decorated classes in first-seen order,
    and each [ParsedFile] holds the decorated classes of its file in the
    order of their discovery. *)
Theorem parseFile_discovery_order :
  forall entryPoint checker parsedFiles checker',
  parseFile entryPoint checker = (Returned parsedFiles, checker') ->
  List.map parsedSourceFile parsedFiles
  = firstOccurrences (List.map fileOf (discovered host checker entryPoint)) /\
  forall parsedFile,
    In parsedFile parsedFiles ->
    decoratedClasses parsedFile
    = classesOf (parsedSourceFile parsedFile)
        (discovered host checker entryPoint).
Proof.
  intros entryPoint checker parsedFiles checker' Hrun.
  apply parseFile_returned in Hrun. subst parsedFiles.
  unfold inDiscoveryOrder. split.
  - rewrite map_map. simpl. apply map_id.
  - intros parsedFile Hfile.
    now apply in_map_iff in Hfile as [file [<- _]].
Qed.

End ParserProperties.

(** [Plain] of [index.js] has no decorators and is not among the classes of
    the result. *)
Lemma parseFile_discards_absent_witness :
  Examples.host Examples.checker (Some Examples.Plain_class) = None /\
  Examples.Foo_class <> Examples.Plain_class.
Proof.
  split; [reflexivity |].
  apply (@parseFile_discards_absent Examples.host Examples.index_js
           Examples.checker _ Examples.checker Examples.Plain_class
           eq_refl eq_refl
           (mkParsedFile Examples.foo_js
              [ mkParsedClass "Foo" Examples.Foo_class [Examples.component];
                mkParsedClass "Baz" Examples.Baz_class
                  [Examples.directive; Examples.injectable] ])
           (mkParsedClass "Foo" Examples.Foo_class [Examples.component]));
    simpl; auto.
Defined.

(** The claim as the specification words it, for an empty as well as an
    absent result, fails: the host reports an empty array for [Empty] of
    [empty.js], and [Empty] is in the result. *)
Lemma parseFile_keeps_empty :
  ~ (forall host entryPoint checker d,
       host checker (Some d) = None \/ host checker (Some d) = Some [] ->
       forall parsedFiles checker',
         Esm2015PackageParser.parseFile host entryPoint checker
         = (Returned parsedFiles, checker') ->
         forall parsedFile clazz,
           In parsedFile parsedFiles ->
           In clazz (decoratedClasses parsedFile) ->
           declaration clazz <> d).
Proof.
  intros H.
  apply (H Examples.host Examples.empty_js Examples.checker Examples.Empty_class
           (or_intror eq_refl) _ _ eq_refl
           (mkParsedFile Examples.foo_js
              [mkParsedClass "Empty" Examples.Empty_class []])
           (mkParsedClass "Empty" Examples.Empty_class []));
    simpl; auto.
Qed.

Lemma parseFile_returns_witness :
  exists parsedFiles,
    Esm2015PackageParser.parseFile Examples.host Examples.index_js Examples.checker
    = (Returned parsedFiles, Examples.checker).
Proof.
  apply parseFile_returns. reflexivity.
Defined.

(** [anonymous.js] exports a decorated class without a name: reading
    [declaration.name.text] throws. *)
Lemma parseFile_throws_on_anonymous_class :
  ~ (forall host entryPoint checker,
       exists parsedFiles,
         fst (Esm2015PackageParser.parseFile host entryPoint checker)
         = Returned parsedFiles).
Proof.
  intros H.
  destruct (H Examples.host Examples.anonymous_js Examples.checker)
    as [parsedFiles Hreturned].
  discriminate Hreturned.
Qed.


Lemma parsedFile_nonempty_witness :
  decoratedClasses
    (mkParsedFile Examples.bar_js
       [mkParsedClass "Bar" Examples.Bar_class [Examples.injectable]]) <> [].
Proof.
  apply (@parsedFile_nonempty Examples.host Examples.index_js Examples.checker
           _ Examples.checker eq_refl).
  simpl; auto.
Defined.

Lemma parseFile_discovery_order_witness :
  List.map parsedSourceFile
    [ mkParsedFile Examples.foo_js
        [ mkParsedClass "Foo" Examples.Foo_class [Examples.component];
          mkParsedClass "Baz" Examples.Baz_class
            [Examples.directive; Examples.injectable] ];
      mkParsedFile Examples.bar_js
        [ mkParsedClass "Bar" Examples.Bar_class [Examples.injectable] ] ]
  = Discovery.firstOccurrences
      (List.map Discovery.fileOf
         (Discovery.discovered Examples.host Examples.checker Examples.index_js)).
Proof.
  apply (proj1 (@parseFile_discovery_order Examples.host Examples.index_js
                  Examples.checker _ Examples.checker eq_refl)).
Defined.

(** ** Further properties of the package parser *)

Section ParserFurtherProperties.
Import ts Discovery.

Variable host : TypeChecker -> option Declaration -> option (list Decorator).

Local Abbreviation parseFile := (Esm2015PackageParser.parseFile host).

(** *** Auxiliary facts *)

Lemma forallb_false_exists : forall (A : Type) (p : A -> bool) (l : list A),
  forallb p l = false <-> exists x, In x l /\ p x = false.
Proof.
  intros A p. induction l as [| a rest IH]; simpl.
  - split; [discriminate | intros [x [[] _]]].
  - rewrite andb_false_iff, IH. split.
    + intros [Ha | [x [Hin Hx]]]; eauto.
    + intros [x [[-> | Hin] Hx]]; eauto.
Qed.

Lemma nameable_false : forall checker d,
  nameable host checker d = false <->
  host checker d <> None /\
  match d with Some d' => name d' = None | None => True end.
Proof.
  intros checker d. unfold nameable.
  destruct (host checker d) as [decorators |].
  - destruct d as [d' |].
    + destruct (name d'); split; try discriminate; try tauto.
      * intros [_ H]; discriminate.
      * intros _. split; [discriminate | reflexivity].
    + split; [intros _; split; [discriminate | exact I] | reflexivity].
  - split; [discriminate | tauto].
Qed.

(** Where a class declaration of the entry module comes from. *)
Lemma classDeclarations_origin : forall checker entryPoint d,
  In d (classDeclarations checker entryPoint) <->
  exists exportSymbol,
    In exportSymbol (exportedSymbols checker entryPoint) /\
    Esm2015PackageParser.isExportedClass (resolved checker exportSymbol) = true /\
    valueDeclaration (resolved checker exportSymbol) = d.
Proof.
  intros checker entryPoint d. unfold classDeclarations.
  rewrite in_map_iff. split.
  - intros [s [Hd Hs]]. apply filter_In in Hs as [Hs Hclass].
    apply in_map_iff in Hs as [e [<- He]]. eauto.
  - intros [e [He [Hclass Hd]]]. exists (resolved checker e).
    split; [exact Hd |]. apply filter_In. split; [| exact Hclass].
    now apply in_map.
Qed.

Lemma discovered_named : forall checker entryPoint clazz,
  In clazz (discovered host checker entryPoint) ->
  exists n, name (declaration clazz) = Some n /\ className clazz = text n.
Proof.
  intros checker entryPoint clazz. unfold discovered.
  induction (classDeclarations checker entryPoint) as [| d rest IH]; simpl.
  - contradiction.
  - destruct (parsedClassOf host checker d) as [c |] eqn:Hc; [| exact IH].
    intros [<- | Hin]; [| auto].
    unfold parsedClassOf in Hc.
    destruct (host checker d); [| discriminate].
    destruct d as [d |]; [| discriminate].
    destruct (name d) as [n |] eqn:Hn; [| discriminate].
    injection Hc as <-. simpl. eauto.
Qed.

Lemma discovered_complete : forall checker entryPoint d n ds,
  In (Some d) (classDeclarations checker entryPoint) ->
  host checker (Some d) = Some ds ->
  name d = Some n ->
  In (mkParsedClass (text n) d ds) (discovered host checker entryPoint).
Proof.
  intros checker entryPoint d n ds Hin Hhost Hname. unfold discovered.
  induction (classDeclarations checker entryPoint) as [| d0 rest IH]; simpl.
  - contradiction.
  - destruct Hin as [-> | Hin].
    + unfold parsedClassOf. rewrite Hhost, Hname. now left.
    + destruct (parsedClassOf host checker d0); [right |]; auto.
Qed.

Lemma filter_other_files : forall file files,
  ~ In file files ->
  List.filter (fun g => negb (SourceFile_eqb file g)) files = files.
Proof.
  induction files as [| a rest IH]; simpl; intros Hfresh.
  - reflexivity.
  - replace (SourceFile_eqb file a) with false
      by (symmetry; apply SourceFile_eqb_neq; intros ->; tauto).
    simpl. f_equal. apply IH. tauto.
Qed.

(** Taking the classes of one file out of the concatenation over distinct
    files. *)
Lemma concat_take_out : forall (G : SourceFile -> list ParsedClass) files file,
  NoDup files -> In file files ->
  Permutation (List.concat (List.map G files))
    (G file ++
     List.concat (List.map G
               (List.filter (fun g => negb (SourceFile_eqb file g)) files))).
Proof.
  intros G. induction files as [| a rest IH]; simpl; intros file Hnodup Hin.
  - contradiction.
  - inversion Hnodup as [| ? ? Hfresh Hrest]; subst.
    destruct (SourceFile_eqb file a) eqn:E; simpl.
    + apply SourceFile_eqb_eq in E; subst a.
      now rewrite filter_other_files.
    + apply SourceFile_eqb_neq in E.
      destruct Hin as [-> | Hin]; [congruence |].
      eapply Permutation_trans;
        [apply Permutation_app_head, (IH file Hrest Hin) |].
      apply Permutation_app_swap_app.
Qed.

Lemma inDiscoveryOrder_permutation : forall classes,
  Permutation (List.concat (List.map decoratedClasses (inDiscoveryOrder classes)))
              classes.
Proof.
  intros classes. unfold inDiscoveryOrder. rewrite map_map. simpl.
  induction classes as [| c rest IH]; simpl.
  - constructor.
  - rewrite SourceFile_eqb_refl. simpl. apply perm_skip.
    rewrite map_ext_in with (g := fun file => classesOf file rest).
    2:{ intros g Hg. apply filter_In in Hg as [_ Hg].
        apply negb_true_iff in Hg. unfold classesOf at 1. simpl.
        now rewrite Hg. }
    destruct (in_dec SourceFile_eq_dec (fileOf c)
                (firstOccurrences (List.map fileOf rest))) as [Hseen | Hfresh].
    + eapply Permutation_trans; [| exact IH]. symmetry.
      apply (@concat_take_out (fun file => classesOf file rest) _ _
               (NoDup_firstOccurrences _) Hseen).
    + rewrite filter_other_files by assumption.
      rewrite classesOf_fresh by (now rewrite <- In_firstOccurrences).
      exact IH.
Qed.

Lemma filter_map_filter : forall (A B : Type) (p : B -> bool) (f : A -> B) l,
  List.filter p (List.map f (List.filter (fun x => p (f x)) l))
  = List.filter p (List.map f l).
Proof.
  induction l as [| a rest IH]; simpl.
  - reflexivity.
  - destruct (p (f a)) eqn:E; simpl; rewrite ?E, IH; reflexivity.
Qed.

(** *** The flag tests *)

Lemma toInt32_testbit : forall n i,
  0 <= i < 32 -> Z.testbit (toInt32 n) i = Z.testbit n i.
Proof.
  intros n i Hi. unfold toInt32. cbv zeta.
  destruct (n mod 2 ^ 32 <? 2 ^ 31).
  - apply Z.mod_pow2_bits_low. lia.
  - rewrite <- (Z.mod_pow2_bits_low (n mod 2 ^ 32 - 2 ^ 32) 32 i) by lia.
    rewrite Zminus_mod, Z_mod_same_full, Z.sub_0_r, !Zmod_mod.
    apply Z.mod_pow2_bits_low. lia.
Qed.

Lemma truthy_land_pow2 : forall x k,
  0 <= k -> truthy (Z.land x (2 ^ k)) = Z.testbit x k.
Proof.
  intros x k Hk.
  assert (Hland : Z.land x (2 ^ k) = if Z.testbit x k then 2 ^ k else 0).
  { apply Z.bits_inj'. intros m Hm.
    rewrite Z.land_spec, Z.pow2_bits_eqb by lia.
    destruct (Z.eqb_spec k m) as [<- | Hneq].
    - destruct (Z.testbit x k); simpl.
      + rewrite Z.pow2_bits_eqb by lia. now rewrite Z.eqb_refl.
      + now rewrite Z.bits_0.
    - rewrite andb_false_r. destruct (Z.testbit x k).
      + rewrite Z.pow2_bits_eqb by lia. symmetry. now apply Z.eqb_neq.
      + now rewrite Z.bits_0. }
  rewrite Hland. unfold truthy.
  destruct (Z.testbit x k); [| reflexivity].
  apply negb_true_iff, Z.eqb_neq.
  pose proof (Z.pow_pos_nonneg 2 k). lia.
Qed.

(** X1. The two tests on [flags] look at one bit each, whatever else the
    flags hold and whatever their size: an export passes the class filter
    exactly when bit 5 ([SymbolFlags.Class]) of its flags is set, and it is
    replaced by its aliased symbol exactly when bit 21
    ([SymbolFlags.Alias]) is set. *)
Theorem flag_tests_one_bit : forall exportSymbol checker,
  Esm2015PackageParser.isExportedClass exportSymbol
  = Z.testbit (flags exportSymbol) 5 /\
  Esm2015PackageParser.resolveExport exportSymbol checker
  = (Returned (if Z.testbit (flags exportSymbol) 21
               then getAliasedSymbol checker exportSymbol
               else exportSymbol),
     checker).
Proof.
  intros exportSymbol checker. split.
  - unfold Esm2015PackageParser.isExportedClass, bitand.
    change (toInt32 SymbolFlags.Class) with (2 ^ 5).
    rewrite truthy_land_pow2 by lia. apply toInt32_testbit. lia.
  - unfold Esm2015PackageParser.resolveExport, bitand.
    change (toInt32 SymbolFlags.Alias) with (2 ^ 21).
    rewrite Z.land_comm, truthy_land_pow2 by lia.
    rewrite toInt32_testbit by lia.
    now destruct (Z.testbit (flags exportSymbol) 21).
Qed.

(** *** Edge and error behaviour *)

(** X2. An entry module whose symbol the checker cannot resolve, and one
    none of whose exports is (after alias resolution) a class, are both
    parsed to the empty sequence. *)
Theorem parseFile_without_classes : forall entryPoint checker,
  (getSymbolAtLocation checker (SourceFileNode entryPoint) = None \/
   forall exportSymbol,
     In exportSymbol (exportedSymbols checker entryPoint) ->
     Esm2015PackageParser.isExportedClass (resolved checker exportSymbol) = false) ->
  parseFile entryPoint checker = (Returned [], checker).
Proof.
  intros entryPoint checker H.
  assert (Hnone : classDeclarations checker entryPoint = []).
  { destruct (classDeclarations checker entryPoint) as [| d rest] eqn:Hds;
      [reflexivity | exfalso].
    assert (Hd : In d (classDeclarations checker entryPoint))
      by (rewrite Hds; now left).
    apply classDeclarations_origin in Hd as [e [He [Hclass _]]].
    destruct H as [Hmodule | Hexports].
    - unfold exportedSymbols in He. now rewrite Hmodule in He.
    - rewrite (Hexports e He) in Hclass. discriminate. }
  rewrite parseFile_run. unfold discovered. now rewrite Hnone.
Qed.

(** X3. [parseFile] throws exactly when the host reports decorators for an
    exported class that has no value declaration or whose declaration has
    no name; one such export makes the whole call throw, whatever the other
    exports are.  Nothing but a [TypeError] is ever thrown. *)
Theorem parseFile_throws_iff : forall entryPoint checker,
  (fst (parseFile entryPoint checker) = Thrown TypeError <->
   exists d,
     In d (classDeclarations checker entryPoint) /\
     host checker d <> None /\
     match d with Some d' => name d' = None | None => True end) /\
  (forall error,
     fst (parseFile entryPoint checker) = Thrown error -> error = TypeError).
Proof.
  intros entryPoint checker. rewrite parseFile_run. simpl.
  destruct (forallb (nameable host checker) (classDeclarations checker entryPoint))
    eqn:Hall.
  - split; [split |]; try discriminate.
    intros [d [Hin Hd]]. apply nameable_false in Hd.
    rewrite forallb_forall in Hall. rewrite (Hall d Hin) in Hd. discriminate.
  - split; [split; [intros _ | reflexivity] |].
    + apply forallb_false_exists in Hall as [d [Hin Hd]].
      apply nameable_false in Hd. eauto.
    + intros error Herror. congruence.
Qed.

(** *** What is in the result *)

(** X4. Every [ParsedClass] of the result is made from the value
    declaration of an export of the entry module that is a class after alias
    resolution; its [decorators] are what the host reports for that
    declaration, and its [name] is the text of the declaration's name. *)
Theorem parseFile_class_sound :
  forall entryPoint checker parsedFiles checker' parsedFile clazz,
  parseFile entryPoint checker = (Returned parsedFiles, checker') ->
  In parsedFile parsedFiles ->
  In clazz (decoratedClasses parsedFile) ->
  (exists exportSymbol,
     In exportSymbol (exportedSymbols checker entryPoint) /\
     Esm2015PackageParser.isExportedClass (resolved checker exportSymbol) = true /\
     valueDeclaration (resolved checker exportSymbol) = Some (declaration clazz)) /\
  host checker (Some (declaration clazz)) = Some (decorators clazz) /\
  (exists n, name (declaration clazz) = Some n /\ className clazz = text n).
Proof.
  intros entryPoint checker parsedFiles checker' parsedFile clazz Hrun Hfile Hclass.
  apply parseFile_returned in Hrun. subst parsedFiles.
  pose proof (inDiscoveryOrder_classes _ _ _ Hfile Hclass) as Hdiscovered.
  destruct (discovered_decorated _ _ _ _ Hdiscovered) as [Hdecl Hhost].
  split; [| split].
  - now apply classDeclarations_origin.
  - exact Hhost.
  - exact (discovered_named _ _ _ Hdiscovered).
Qed.

(** X5. When [parseFile] returns, every export that is a class after alias
    resolution, has a named value declaration and has decorators according
    to the host is in the result: the [ParsedFile] of the declaration's
    source file holds a [ParsedClass] with that name, declaration and
    decorators. *)
Theorem parseFile_class_complete :
  forall entryPoint checker parsedFiles checker' exportSymbol d n ds,
  parseFile entryPoint checker = (Returned parsedFiles, checker') ->
  In exportSymbol (exportedSymbols checker entryPoint) ->
  Esm2015PackageParser.isExportedClass (resolved checker exportSymbol) = true ->
  valueDeclaration (resolved checker exportSymbol) = Some d ->
  name d = Some n ->
  host checker (Some d) = Some ds ->
  exists parsedFile,
    In parsedFile parsedFiles /\
    parsedSourceFile parsedFile = getSourceFile d /\
    In (mkParsedClass (text n) d ds) (decoratedClasses parsedFile).
Proof.
  intros entryPoint checker parsedFiles checker' exportSymbol d n ds
    Hrun Hexport Hclass Hdecl Hname Hhost.
  apply parseFile_returned in Hrun. subst parsedFiles.
  assert (Hin : In (mkParsedClass (text n) d ds)
                   (discovered host checker entryPoint)).
  { apply discovered_complete; try assumption.
    apply classDeclarations_origin. eauto. }
  exists (mkParsedFile (getSourceFile d)
            (classesOf (getSourceFile d) (discovered host checker entryPoint))).
  split; [| split].
  - unfold inDiscoveryOrder. apply in_map_iff.
    exists (getSourceFile d). split; [reflexivity |].
    apply In_firstOccurrences.
    change (getSourceFile d) with (fileOf (mkParsedClass (text n) d ds)).
    now apply in_map.
  - reflexivity.
  - simpl. apply filter_In. split; [exact Hin |].
    apply SourceFile_eqb_refl.
Qed.

(** X6. No two [ParsedFile]s of the result stand for the same source
    file. *)
Theorem parseFile_files_distinct :
  forall entryPoint checker parsedFiles checker',
  parseFile entryPoint checker = (Returned parsedFiles, checker') ->
  NoDup (List.map parsedSourceFile parsedFiles).
Proof.
  intros entryPoint checker parsedFiles checker' Hrun.
  apply parseFile_returned in Hrun. subst parsedFiles.
  unfold inDiscoveryOrder. rewrite map_map. simpl. rewrite map_id.
  apply NoDup_firstOccurrences.
Qed.

(** X7. Every [ParsedClass] sits in the [ParsedFile] of the source file of
    its own declaration. *)
Theorem parseFile_class_in_own_file :
  forall entryPoint checker parsedFiles checker' parsedFile clazz,
  parseFile entryPoint checker = (Returned parsedFiles, checker') ->
  In parsedFile parsedFiles ->
  In clazz (decoratedClasses parsedFile) ->
  getSourceFile (declaration clazz) = parsedSourceFile parsedFile.
Proof.
  intros entryPoint checker parsedFiles checker' parsedFile clazz Hrun Hfile Hclass.
  apply parseFile_returned in Hrun. subst parsedFiles.
  unfold inDiscoveryOrder in Hfile.
  apply in_map_iff in Hfile as [file [<- _]]. simpl in *.
  apply filter_In in Hclass as [_ Hclass].
  now apply SourceFile_eqb_eq in Hclass.
Qed.

(** X8. Grouping loses and repeats nothing: the classes of all returned
    files together are, up to order, the decorated classes found during
    export enumeration, each as often as it was found.  A class exported
    twice (directly and through an alias, say) is recorded twice. *)
Theorem parseFile_keeps_every_class :
  forall entryPoint checker parsedFiles checker',
  parseFile entryPoint checker = (Returned parsedFiles, checker') ->
  Permutation (List.concat (List.map decoratedClasses parsedFiles))
              (discovered host checker entryPoint).
Proof.
  intros entryPoint checker parsedFiles checker' Hrun.
  apply parseFile_returned in Hrun. subst parsedFiles.
  apply inDiscoveryOrder_permutation.
Qed.

(** X9. Exports that are not classes (after alias resolution) have no
    influence: a module is parsed to the same outcome as one that exports
    only its classes, in the same order. *)
Theorem parseFile_ignores_other_exports : forall checker full classesOnly,
  exportedSymbols checker classesOnly
  = List.filter
      (fun s => Esm2015PackageParser.isExportedClass (resolved checker s))
      (exportedSymbols checker full) ->
  parseFile full checker = parseFile classesOnly checker.
Proof.
  intros checker full classesOnly Hexports.
  rewrite !parseFile_run. unfold discovered, classDeclarations.
  now rewrite Hexports, filter_map_filter.
Qed.

End ParserFurtherProperties.

Lemma parseFile_without_classes_witness :
  Esm2015PackageParser.parseFile Examples.host Examples.missing_js Examples.checker
  = (Returned [], Examples.checker).
Proof.
  apply parseFile_without_classes. left. reflexivity.
Defined.

Lemma parseFile_throws_iff_witness :
  fst (Esm2015PackageParser.parseFile Examples.host Examples.anonymous_js
         Examples.checker)
  = Thrown TypeError.
Proof.
  apply (proj1 (parseFile_throws_iff Examples.host Examples.anonymous_js
                  Examples.checker)).
  exists (Some Examples.anonymous_class). simpl.
  split; [tauto | split; [discriminate | reflexivity]].
Defined.

Lemma parseFile_class_sound_witness :
  Examples.host Examples.checker (Some Examples.Baz_class)
  = Some [Examples.directive; Examples.injectable].
Proof.
  apply (proj1 (proj2
    (@parseFile_class_sound Examples.host Examples.index_js Examples.checker
       _ Examples.checker
       (mkParsedFile Examples.foo_js
          [ mkParsedClass "Foo" Examples.Foo_class [Examples.component];
            mkParsedClass "Baz" Examples.Baz_class
              [Examples.directive; Examples.injectable] ])
       (mkParsedClass "Baz" Examples.Baz_class
          [Examples.directive; Examples.injectable])
       eq_refl (or_introl eq_refl) (or_intror (or_introl eq_refl))))).
Defined.

Lemma parseFile_class_complete_witness :
  exists parsedFile,
    In parsedFile
      (match fst (Esm2015PackageParser.parseFile Examples.host
                    Examples.reexport_js Examples.checker) with
       | Returned parsedFiles => parsedFiles
       | Thrown _ => []
       end) /\
    parsedSourceFile parsedFile = Examples.bar_js /\
    In (mkParsedClass "Bar" Examples.Bar_class [Examples.injectable])
       (decoratedClasses parsedFile).
Proof.
  apply (@parseFile_class_complete Examples.host Examples.reexport_js
           Examples.checker _ Examples.checker
           (Examples.alias_symbol "Bar") Examples.Bar_class
           (ts.mkIdentifier 10 "Bar") [Examples.injectable]);
    try reflexivity.
  simpl; auto.
Defined.

Lemma parseFile_files_distinct_witness :
  NoDup [Examples.foo_js; Examples.bar_js].
Proof.
  apply (@parseFile_files_distinct Examples.host Examples.index_js
           Examples.checker _ Examples.checker eq_refl).
Defined.

Lemma parseFile_class_in_own_file_witness :
  ts.getSourceFile Examples.Baz_class = Examples.foo_js.
Proof.
  apply (@parseFile_class_in_own_file Examples.host Examples.index_js
           Examples.checker _ Examples.checker
           (mkParsedFile Examples.foo_js
              [ mkParsedClass "Foo" Examples.Foo_class [Examples.component];
                mkParsedClass "Baz" Examples.Baz_class
                  [Examples.directive; Examples.injectable] ])
           (mkParsedClass "Baz" Examples.Baz_class
              [Examples.directive; Examples.injectable])
           eq_refl (or_introl eq_refl) (or_intror (or_introl eq_refl))).
Defined.

(** [twice.js] exports [Foo] directly and once more through an alias, with
    [Bar] in between: [Foo] is recorded twice. *)
Lemma parseFile_keeps_every_class_witness :
  Permutation
    [ mkParsedClass "Foo" Examples.Foo_class [Examples.component];
      mkParsedClass "Foo" Examples.Foo_class [Examples.component];
      mkParsedClass "Bar" Examples.Bar_class [Examples.injectable] ]
    [ mkParsedClass "Foo" Examples.Foo_class [Examples.component];
      mkParsedClass "Bar" Examples.Bar_class [Examples.injectable];
      mkParsedClass "Foo" Examples.Foo_class [Examples.component] ].
Proof.
  apply (@parseFile_keeps_every_class Examples.host MoreExamples.twice_js
           MoreExamples.checker _ MoreExamples.checker eq_refl).
Defined.

(** [classes.js] exports the four classes of [index.js] and nothing else. *)
Lemma parseFile_ignores_other_exports_witness :
  Esm2015PackageParser.parseFile Examples.host Examples.index_js MoreExamples.checker
  = Esm2015PackageParser.parseFile Examples.host MoreExamples.classes_js
      MoreExamples.checker.
Proof.
  apply parseFile_ignores_other_exports. reflexivity.
Defined.

(** ** Further properties of the ESM5 reflection host *)

Section Esm5HostFurtherProperties.
Import ts Shapes.

Variable ReflectedObject : Type.
Variable getPropertyValueFromSymbol : Symbol -> option Expression.
Variable reflectObjectLiteral : list (string * Expression) -> ReflectedObject.

Local Abbreviation getConstructorDecorators :=
  (Esm5ReflectionHost.getConstructorDecorators
     getPropertyValueFromSymbol reflectObjectLiteral).

(** X10. Only the first immediate return statement of a body counts:
    whatever follows it, further return statements included, changes
    neither [getReturnStatement] nor [getReturnIdentifier].  When the first
    return statement returns nothing or something that is not a bare
    identifier, [getReturnIdentifier] is none even if a later one returns an
    identifier. *)
Theorem first_return_only : forall before returned after,
  forallb (fun s => negb (isReturnStatement s)) before = true ->
  Esm5ReflectionHost.getReturnStatement
    (before ++ ReturnStatement returned :: after)
  = Some (ReturnStatement returned) /\
  Esm5ReflectionHost.getReturnIdentifier
    (before ++ ReturnStatement returned :: after)
  = match returned with
    | Some (IdentifierExpression id) => Some id
    | _ => None
    end.
Proof.
  intros before returned after Hbefore.
  assert (Hfound : Esm5ReflectionHost.getReturnStatement
                     (before ++ ReturnStatement returned :: after)
                   = Some (ReturnStatement returned)).
  { unfold Esm5ReflectionHost.getReturnStatement.
    induction before as [| s rest IH]; simpl in *.
    - reflexivity.
    - apply andb_true_iff in Hbefore as [Hs Hrest].
      apply negb_true_iff in Hs. rewrite Hs. auto. }
  split; [exact Hfound |].
  unfold Esm5ReflectionHost.getReturnIdentifier. rewrite Hfound.
  now destruct returned as [[] |].
Qed.

(** X11. [getReturnStatement] finds nothing exactly when no immediate
    statement of the body is a return statement; what it finds is a return
    statement and one of the immediate statements of the body. *)
Theorem getReturnStatement_found_iff : forall body,
  (Esm5ReflectionHost.getReturnStatement body = None <->
   forall s, In s body -> isReturnStatement s = false) /\
  (forall s, Esm5ReflectionHost.getReturnStatement body = Some s ->
             In s body /\ isReturnStatement s = true).
Proof.
  unfold Esm5ReflectionHost.getReturnStatement.
  induction body as [| s0 rest [IHnone IHsome]]; simpl.
  - split; [split; [contradiction | reflexivity] | discriminate].
  - destruct (isReturnStatement s0) eqn:Hs0; split.
    + split; [discriminate |]. intros H.
      specialize (H s0 (or_introl eq_refl)). congruence.
    + intros s H. injection H as <-. auto.
    + rewrite IHnone. split.
      * intros H s [<- | Hin]; auto.
      * intros H s Hin. auto.
    + intros s H. destruct (IHsome s H). auto.
Qed.

(** X12. [getIifeBody] yields a body for exactly one shape of initializer: a
    parenthesized expression directly around a call whose callee is
    directly a function expression; the body is that function's.  A missing
    initializer, a call outside the parentheses, an arrow function as
    callee and doubled parentheses all yield nothing. *)
Theorem getIifeBody_shape : forall initializer body,
  Esm5ReflectionHost.getIifeBody initializer = Some body <->
  exists parameters arguments,
    initializer
    = Some (ParenthesizedExpression
              (CallExpression (FunctionExpression parameters body) arguments)).
Proof.
  intros initializer body. split.
  - destruct initializer as [[ | call | | | | | | | | ] |]; try discriminate.
    destruct call as [ | | callee arguments | | | | | | | ]; try discriminate.
    destruct callee as [ | | | parameters body' | | | | | | ]; try discriminate.
    simpl. intros H. injection H as <-. eauto.
  - intros [parameters [arguments ->]]. reflexivity.
Qed.

(** X13. A non-empty result of [getConstructorDecorators] can only come
    from a well-formed [ctorParameters]: the class symbol has the property,
    its value is a function expression, the first immediate return
    statement of that function returns an array literal, and the result is
    that literal's elements reflected one by one. *)
Theorem getConstructorDecorators_nonempty : forall classSymbol,
  getConstructorDecorators classSymbol <> [] ->
  exists parameters body elements,
    ctorParametersValue getPropertyValueFromSymbol classSymbol
      (Some (FunctionExpression parameters body)) /\
    FirstReturn body (Some (ArrayLiteralExpression elements)) /\
    elements <> [] /\
    getConstructorDecorators classSymbol
    = List.map (fun element =>
                  match element with
                  | ObjectLiteralExpression properties =>
                      Some (reflectObjectLiteral properties)
                  | _ => None
                  end) elements.
Proof.
  intros classSymbol.
  unfold Esm5ReflectionHost.getConstructorDecorators.
  destruct (exports classSymbol) as [table |] eqn:Hexports; [| congruence].
  destruct (SymbolTable_has table Esm5ReflectionHost.CONSTRUCTOR_PARAMS);
    [| congruence].
  destruct (SymbolTable_get table Esm5ReflectionHost.CONSTRUCTOR_PARAMS)
    as [propSymbol |] eqn:Hget; [| congruence].
  destruct (getPropertyValueFromSymbol propSymbol) as [value |] eqn:Hvalue;
    [| congruence].
  destruct value as [ | | | parameters body | | | | | | ]; try congruence.
  destruct (Esm5ReflectionHost.getReturnStatement body) as [s |] eqn:Hreturn;
    [| congruence].
  destruct (getReturnStatement_found _ Hreturn) as [e [-> Hfirst]].
  destruct e as [e |]; [| congruence].
  destruct e as [ | | | | | elements | | | | ]; try congruence.
  intros Hnonempty. exists parameters, body, elements.
  split; [| split; [exact Hfirst | split]].
  - exists table, propSymbol. auto.
  - intros ->. apply Hnonempty. reflexivity.
  - reflexivity.
Qed.

End Esm5HostFurtherProperties.

(** [function Foo() {} return; return Foo;]: the first return statement
    returns nothing. *)
Lemma first_return_only_witness :
  Esm5ReflectionHost.getReturnIdentifier
    [ ts.FunctionDeclarationStatement (Some (ts.mkIdentifier 30 "Foo")) [] [];
      ts.ReturnStatement None;
      ts.ReturnStatement
        (Some (ts.IdentifierExpression Examples.inner_Foo_identifier)) ]
  = None.
Proof.
  apply (proj2 (@first_return_only
                  [ts.FunctionDeclarationStatement
                     (Some (ts.mkIdentifier 30 "Foo")) [] []]
                  None
                  [ts.ReturnStatement
                     (Some (ts.IdentifierExpression
                              Examples.inner_Foo_identifier))]
                  eq_refl)).
Defined.

Lemma getReturnStatement_found_iff_witness :
  In (ts.ReturnStatement
        (Some (ts.IdentifierExpression Examples.inner_Foo_identifier)))
     Examples.iife_body.
Proof.
  apply (proj2 (getReturnStatement_found_iff Examples.iife_body) _ eq_refl).
Defined.

Lemma getIifeBody_shape_witness :
  Esm5ReflectionHost.getIifeBody
    (Some (ts.ParenthesizedExpression
             (ts.CallExpression (ts.FunctionExpression [] Examples.iife_body) [])))
  = Some Examples.iife_body.
Proof.
  apply getIifeBody_shape. exists [], []. reflexivity.
Defined.

Lemma getConstructorDecorators_nonempty_witness :
  exists parameters body elements,
    Shapes.ctorParametersValue Examples.getPropertyValueFromSymbol
      (Examples.inner_Foo "function")
      (Some (ts.FunctionExpression parameters body)) /\
    Shapes.FirstReturn body (Some (ts.ArrayLiteralExpression elements)) /\
    elements <> [] /\
    Esm5ReflectionHost.getConstructorDecorators
      Examples.getPropertyValueFromSymbol Examples.reflectObjectLiteral
      (Examples.inner_Foo "function")
    = List.map (fun element =>
                  match element with
                  | ts.ObjectLiteralExpression properties =>
                      Some (Examples.reflectObjectLiteral properties)
                  | _ => None
                  end) elements.
Proof.
  apply getConstructorDecorators_nonempty. discriminate.
Defined.

(** ** Repeated invocations *)

Section RepeatedInvocations.
Import ts EffectfulParser.

Lemma leavesSnapshot_ret : forall (A : Type) (a : A), leavesSnapshot (ret a).
Proof. intros A a snapshot. reflexivity. Qed.

Lemma leavesSnapshot_throw : forall (A : Type) error,
  leavesSnapshot (@throw A error).
Proof. intros A error snapshot. reflexivity. Qed.

Lemma leavesSnapshot_query : forall (A : Type) (q : TypeChecker -> A),
  leavesSnapshot (query q).
Proof. intros A q snapshot. reflexivity. Qed.

Lemma leavesSnapshot_property_of : forall (A : Type) (o : option A),
  leavesSnapshot (property_of o).
Proof.
  intros A [a |]; [apply leavesSnapshot_ret | apply leavesSnapshot_throw].
Qed.

(** Sequencing keeps the snapshot when both parts do; when the first part
    throws, the second does not run. *)
Lemma leavesSnapshot_bind : forall (A B : Type) (m : M A) (f : A -> M B),
  leavesSnapshot m ->
  (forall a, leavesSnapshot (f a)) ->
  leavesSnapshot (bind m f).
Proof.
  intros A B m f Hm Hf snapshot. unfold bind.
  specialize (Hm snapshot).
  destruct (m snapshot) as [[a | error] snapshot']; simpl in Hm; subst snapshot'.
  - apply Hf.
  - reflexivity.
Qed.

Lemma leavesSnapshot_mapM : forall (A B : Type) (f : A -> M B) l,
  (forall a, leavesSnapshot (f a)) ->
  leavesSnapshot (mapM f l).
Proof.
  intros A B f l Hf. induction l as [| a rest IH]; simpl.
  - apply leavesSnapshot_ret.
  - apply leavesSnapshot_bind; [apply Hf | intros b].
    apply leavesSnapshot_bind; [exact IH | intros bs].
    apply leavesSnapshot_ret.
Qed.

Lemma leavesSnapshot_forEachM :
  forall (A St : Type) (f : St -> A -> M St) l acc,
  (forall acc' a, leavesSnapshot (f acc' a)) ->
  leavesSnapshot (forEachM f l acc).
Proof.
  intros A St f l acc Hf. revert acc.
  induction l as [| a rest IH]; simpl; intros acc.
  - apply leavesSnapshot_ret.
  - apply leavesSnapshot_bind; [apply Hf | intros acc'; apply IH].
Qed.

Lemma leavesSnapshot_addToFile : forall map clazz,
  leavesSnapshot (Esm2015PackageParser.addToFile map clazz).
Proof.
  intros map clazz. unfold Esm2015PackageParser.addToFile.
  apply leavesSnapshot_bind; [apply leavesSnapshot_property_of | intros].
  apply leavesSnapshot_ret.
Qed.

Section Services.

Variable services : Services.
Hypothesis immutable : immutableUnder services.

Lemma leavesSnapshot_resolveExport : forall exportSymbol,
  leavesSnapshot (resolveExport services exportSymbol).
Proof.
  intros exportSymbol. unfold resolveExport.
  destruct immutable as (_ & _ & Haliased & _).
  destruct (truthy _); [apply Haliased | apply leavesSnapshot_ret].
Qed.

Lemma leavesSnapshot_toParsedClass : forall declaration,
  leavesSnapshot (toParsedClass services declaration).
Proof.
  intros declaration. unfold toParsedClass.
  destruct immutable as (_ & _ & _ & Hhost).
  apply leavesSnapshot_bind; [apply Hhost | intros [decorators |]].
  - apply leavesSnapshot_bind; [apply leavesSnapshot_property_of | intros d].
    apply leavesSnapshot_bind; [apply leavesSnapshot_property_of | intros n].
    apply leavesSnapshot_ret.
  - apply leavesSnapshot_ret.
Qed.

(** An invocation changes the snapshot no more than the services do. *)
Lemma leavesSnapshot_parseFile : forall entryPoint,
  leavesSnapshot (EffectfulParser.parseFile services entryPoint).
Proof.
  intros entryPoint. unfold EffectfulParser.parseFile.
  destruct immutable as (Hsymbol & Hexports & _ & _).
  apply leavesSnapshot_bind; [apply Hsymbol | intros [moduleSymbol |]].
  - apply leavesSnapshot_bind; [apply Hexports | intros exported].
    apply leavesSnapshot_bind;
      [apply leavesSnapshot_mapM, leavesSnapshot_resolveExport | intros resolved].
    apply leavesSnapshot_bind;
      [apply leavesSnapshot_mapM, leavesSnapshot_toParsedClass | intros mapped].
    apply leavesSnapshot_bind;
      [apply leavesSnapshot_forEachM, leavesSnapshot_addToFile | intros map].
    apply leavesSnapshot_ret.
  - apply leavesSnapshot_ret.
Qed.

End Services.

(** The parser of the earlier sections is the parser run against
    queries. *)
Lemma parseFile_against_queries : forall host entryPoint,
  EffectfulParser.parseFile (queries host) entryPoint
  = Esm2015PackageParser.parseFile host entryPoint.
Proof. reflexivity. Qed.

Lemma queries_immutable : forall host, immutableUnder (queries host).
Proof.
  intros host. repeat split; intros; apply leavesSnapshot_query.
Qed.

(** C9. Over an immutable snapshot, that is with a checker and a host
    whose calls leave the snapshot as it is, [parseFile] itself changes
    nothing: an invocation hands the snapshot back as it found it, whether
    it returns or throws, and a second invocation on the same entry module
    comes to the same outcome as the first.  The parser writes only to the
    map and the records it has made itself. *)
Theorem parseFile_repeatable : forall services entryPoint snapshot,
  immutableUnder services ->
  let first := EffectfulParser.parseFile services entryPoint snapshot in
  let second := EffectfulParser.parseFile services entryPoint (snd first) in
  snd first = snapshot /\ snd second = snapshot /\ fst first = fst second.
Proof.
  intros services entryPoint snapshot Himmutable first second.
  assert (Hfirst : snd first = snapshot)
    by (apply leavesSnapshot_parseFile; exact Himmutable).
  subst second. rewrite Hfirst. fold first. tauto.
Qed.

End RepeatedInvocations.

(** The parser of the earlier sections, on [index.js]. *)
Lemma parseFile_repeatable_witness :
  let first :=
    Esm2015PackageParser.parseFile Examples.host Examples.index_js
      Examples.checker in
  let second :=
    Esm2015PackageParser.parseFile Examples.host Examples.index_js (snd first) in
  snd first = Examples.checker /\ snd second = Examples.checker /\
  fst first = fst second.
Proof.
  apply (@parseFile_repeatable (EffectfulParser.queries Examples.host)
           Examples.index_js Examples.checker).
  repeat split; intros x snapshot; reflexivity.
Defined.

(** Without the premise the conclusion fails: against a service that
    changes the snapshot, the second invocation finds no exports. *)
Example parseFile_after_mutation :
  let first :=
    EffectfulParser.parseFile MoreExamples.forgetful Examples.index_js
      Examples.checker in
  let second :=
    EffectfulParser.parseFile MoreExamples.forgetful Examples.index_js
      (snd first) in
  fst second = Returned [] /\ fst first <> fst second.
Proof.
  split; [reflexivity | discriminate].
Qed.
